(** * Thumbnail worker: [zerver/worker/thumbnail.py]

    A shallow embedding of [ensure_thumbnails] and of the objects it
    touches: the in-memory [ImageAttachment] instance, the rows of its
    table, the upload backend, and the calls into pyvips.  Python's
    exceptions and in-place mutation are made explicit with a state and
    exception monad; the collaborators whose code lives elsewhere
    (pyvips, the upload backend, [guess_type], [missing_thumbnails], ...)
    are fields of an environment record. *)

From Stdlib Require Import ZArith Lia Strings.Byte.
From stdpp Require Import base option list strings gmap.

Local Open Scope string_scope.
Local Open Scope list_scope.
Local Open Scope Z_scope.

(** ** Data model *)

Abbreviation bytes := (list byte).

(** [zerver.lib.thumbnail.ThumbnailFormat]: one entry of the catalogue. *)
Record ThumbnailFormat := {
  extension : string;
  max_width : Z;
  max_height : Z;
  animated : bool;
  opts : string;
}.

(** [asdict(StoredThumbnailFormat(...))]: one element of
    [thumbnail_metadata]. *)
Module Stored.
Record t := {
  extension : string;
  content_type : string;
  max_width : Z;
  max_height : Z;
  animated : bool;
  width : Z;
  height : Z;
  byte_size : Z;
}.
End Stored.
Abbreviation StoredThumbnailFormat := Stored.t.

(** [zerver.models.ImageAttachment], with the fields the worker reads. *)
Record ImageAttachment := {
  id : Z;
  path_id : string;
  original_width_px : Z;
  original_height_px : Z;
  frames : Z;
  thumbnail_metadata : list StoredThumbnailFormat;
}.

(** The slice of pyvips the worker calls. *)
Module pyvips.
(** [pyvips.Size] *)
Inductive Size := BOTH | UP | DOWN | FORCE.

(** What the worker reads off a [pyvips.Image]: its two attributes and
    its metadata fields ([Image.get]).  An image loaded with several
    frames holds them stacked in one canvas: [height] is the height of
    that canvas, and the field "page-height" the height of one frame. *)
Record Image := {
  width : Z;
  height : Z;
  fields : gmap string Z;
}.

(** [Image.get(name)] raises [pyvips.Error] when the field is absent. *)
Definition get (im : Image) (name : string) : string + Z :=
  match fields im !! name with
  | Some v => inr v
  | None => inl ("field " +:+ name +:+ " not found")
  end.
End pyvips.

(** A file held by the upload backend. *)
Record StoredFile := {
  file_content_type : option string;
  file_content : bytes;
}.

(** Exceptions, by class. *)
Inductive exception :=
| pyvips_Error (msg : string)
| AssertionError
| StorageError (msg : string)
| DatabaseError (msg : string).

Definition is_pyvips_Error (e : exception) : bool :=
  match e with pyvips_Error _ => true | _ => false end.

Inductive LogRecord :=
| LogResizing (w h from_w from_h : Z)
| LogUploading (n : Z) (path : string)
| LogException (e : exception).

(** Calls that leave the process, in the order they are made. *)
Inductive Event :=
| EvFetch (path : string)
| EvResize (w h : Z) (option_string : string) (size : pyvips.Size)
| EvEncode (suffix : string)
| EvUpload (path content_type : string) (n : Z)
| EvDelete (pk : Z)
| EvSave (pk : Z) (update_fields : list string)
| EvLog (r : LogRecord).

(** ** Collaborators *)

Record Env := {
  (** [zerver.lib.thumbnail.missing_thumbnails] *)
  missing_thumbnails : ImageAttachment → list ThumbnailFormat;
  (** [zerver.lib.mime_types.guess_type(...)[0]] *)
  guess_type : string → option string;
  (** [zerver.lib.upload.get_image_thumbnail_path] *)
  get_image_thumbnail_path : ImageAttachment → ThumbnailFormat → string;
  (** [zerver.lib.upload.save_attachment_contents]: the bytes, or the
      message of the error the backend raises. *)
  save_attachment_contents : string → gmap string StoredFile → string + bytes;
  (** [upload_backend.upload_message_attachment]: the backend afterwards,
      or the message of the error it raises. *)
  upload_message_attachment :
    string → string → bytes → gmap string StoredFile → string + gmap string StoredFile;
  (** [pyvips.Image.thumbnail_buffer(buf, width, height=, option_string=, size=)] *)
  thumbnail_buffer : bytes → Z → Z → string → pyvips.Size → string + pyvips.Image;
  (** [Image.write_to_buffer(suffix)] *)
  write_to_buffer : pyvips.Image → string → string + bytes;
}.

(** ** State and control *)

Record State := {
  (** the model instance bound to the parameter [image_attachment] *)
  image_attachment : ImageAttachment;
  (** the rows of the [ImageAttachment] table, by primary key *)
  table : gmap Z ImageAttachment;
  (** the upload backend *)
  storage : gmap string StoredFile;
  (** the local variable [written_images] *)
  written_images : Z;
  trace : list Event;
}.

Inductive outcome (A : Type) :=
| Normal (a : A)
| Raise (e : exception).
Arguments Normal {A} a.
Arguments Raise {A} e.

Definition M (A : Type) : Type := State → outcome A * State.

#[global] Instance M_ret : MRet M := λ A a s, (Normal a, s).
#[global] Instance M_bind : MBind M := λ A B f m s,
  match m s with
  | (Normal a, s') => f a s'
  | (Raise e, s') => (Raise e, s')
  end.

Definition raise {A} (e : exception) : M A := λ s, (Raise e, s).
Definition gets {A} (f : State → A) : M A := λ s, (Normal (f s), s).
Definition modify (f : State → State) : M unit := λ s, (Normal (), f s).

(** [try: body  except <caught>: handler] *)
Definition try_except {A} (body : M A) (caught : exception → bool)
    (handler : exception → M A) : M A := λ s,
  match body s with
  | (Raise e, s') => if caught e then handler e s' else (Raise e, s')
  | r => r
  end.

(** [for x in xs: body x] *)
Fixpoint for_each {A} (xs : list A) (body : A → M unit) : M unit :=
  match xs with
  | [] => mret ()
  | x :: rest => body x;; for_each rest body
  end.

(** *** State updates *)

Definition set_thumbnail_metadata (md : list StoredThumbnailFormat)
    (a : ImageAttachment) : ImageAttachment :=
  {| id := id a; path_id := path_id a;
     original_width_px := original_width_px a;
     original_height_px := original_height_px a;
     frames := frames a; thumbnail_metadata := md |}.

Definition with_image_attachment (a : ImageAttachment) (s : State) : State :=
  {| image_attachment := a; table := table s; storage := storage s;
     written_images := written_images s; trace := trace s |}.

Definition with_table (t : gmap Z ImageAttachment) (s : State) : State :=
  {| image_attachment := image_attachment s; table := t; storage := storage s;
     written_images := written_images s; trace := trace s |}.

Definition with_storage (st : gmap string StoredFile) (s : State) : State :=
  {| image_attachment := image_attachment s; table := table s; storage := st;
     written_images := written_images s; trace := trace s |}.

Definition with_written_images (n : Z) (s : State) : State :=
  {| image_attachment := image_attachment s; table := table s;
     storage := storage s; written_images := n; trace := trace s |}.

Definition with_trace (t : list Event) (s : State) : State :=
  {| image_attachment := image_attachment s; table := table s;
     storage := storage s; written_images := written_images s; trace := t |}.

Definition emit (ev : Event) : M unit :=
  modify (λ s, with_trace (trace s ++ [ev]) s).

(** [logger.info] and [logger.exception] *)
Definition log (r : LogRecord) : M unit := emit (EvLog r).

(** A call that raises [pyvips.Error] on failure. *)
Definition vips {A} (r : string + A) : M A :=
  match r with
  | inr a => mret a
  | inl msg => raise (pyvips_Error msg)
  end.

(** [image_attachment.thumbnail_metadata.append(entry)] *)
Definition append_thumbnail_metadata (entry : StoredThumbnailFormat) : M unit :=
  modify (λ s,
    let a := image_attachment s in
    with_image_attachment
      (set_thumbnail_metadata (thumbnail_metadata a ++ [entry]) a) s).

(** *** The model layer *)

(** Copy one named field of the instance into the row, as the UPDATE that
    [save(update_fields=...)] issues does; the primary key is not
    updatable and an unknown name changes nothing. *)
Definition write_field (instance : ImageAttachment) (row : ImageAttachment)
    (name : string) : ImageAttachment :=
  if String.eqb name "path_id" then
    {| id := id row; path_id := path_id instance;
       original_width_px := original_width_px row;
       original_height_px := original_height_px row;
       frames := frames row; thumbnail_metadata := thumbnail_metadata row |}
  else if String.eqb name "original_width_px" then
    {| id := id row; path_id := path_id row;
       original_width_px := original_width_px instance;
       original_height_px := original_height_px row;
       frames := frames row; thumbnail_metadata := thumbnail_metadata row |}
  else if String.eqb name "original_height_px" then
    {| id := id row; path_id := path_id row;
       original_width_px := original_width_px row;
       original_height_px := original_height_px instance;
       frames := frames row; thumbnail_metadata := thumbnail_metadata row |}
  else if String.eqb name "frames" then
    {| id := id row; path_id := path_id row;
       original_width_px := original_width_px row;
       original_height_px := original_height_px row;
       frames := frames instance; thumbnail_metadata := thumbnail_metadata row |}
  else if String.eqb name "thumbnail_metadata" then
    set_thumbnail_metadata (thumbnail_metadata instance) row
  else row.

(** [image_attachment.save(update_fields=...)]: an UPDATE of the listed
    columns of the row with the instance's primary key; Django raises
    [DatabaseError] when no row was affected. *)
Definition save (update_fields : list string) : M unit :=
  a ← gets image_attachment;
  emit (EvSave (id a) update_fields);;
  t ← gets table;
  match t !! id a with
  | Some row =>
      modify (with_table (<[id a := foldl (write_field a) row update_fields]> t))
  | None => raise (DatabaseError "Save with update_fields did not affect any rows.")
  end.

(** [image_attachment.delete()]: the row with the instance's primary key
    goes.  Django also sets the key of the instance to [None]; the model
    leaves the instance as it is, since the function returns at once
    (line 119) and nothing reads the instance after the call.  No result
    below speaks of the instance's key after a delete. *)
Definition delete_row : M unit :=
  a ← gets image_attachment;
  emit (EvDelete (id a));;
  modify (λ s, with_table (delete (id a) (table s)) s).

(** *** The collaborators, as actions *)

(** [save_attachment_contents(path_id, image_bytes)] *)
Definition fetch_contents (env : Env) (path : string) : M bytes :=
  emit (EvFetch path);;
  st ← gets storage;
  match save_attachment_contents env path st with
  | inr b => mret b
  | inl msg => raise (StorageError msg)
  end.

(** [pyvips.Image.thumbnail_buffer(...)] *)
Definition thumbnail (env : Env) (buf : bytes) (w h : Z) (option_string : string)
    (size : pyvips.Size) : M pyvips.Image :=
  emit (EvResize w h option_string size);;
  vips (thumbnail_buffer env buf w h option_string size).

(** [resized.write_to_buffer(suffix)] *)
Definition write_image (env : Env) (im : pyvips.Image) (suffix : string) : M bytes :=
  emit (EvEncode suffix);;
  vips (write_to_buffer env im suffix).

(** [upload_backend.upload_message_attachment(path, content_type, data, None)] *)
Definition upload (env : Env) (path content_type : string) (data : bytes) : M unit :=
  emit (EvUpload path content_type (Z.of_nat (length data)));;
  st ← gets storage;
  match upload_message_attachment env path content_type data st with
  | inr st' => modify (with_storage st')
  | inl msg => raise (StorageError msg)
  end.

(** ** [ensure_thumbnails] *)

(** Lines 65-73: the option string handed to the loader. *)
Definition load_opts (image_attachment : ImageAttachment)
    (thumbnail_format : ThumbnailFormat) : string :=
  if 1 <? frames image_attachment then
    if animated thumbnail_format then "n=-1" else "n=1"
  else "".

(** Line 94: the height that gets recorded; [Image.get] may raise. *)
Definition output_height (thumbnail_format : ThumbnailFormat)
    (resized : pyvips.Image) : string + Z :=
  if animated thumbnail_format then pyvips.get resized "page-height"
  else inr (pyvips.height resized).

(** Lines 95-108: the entry appended for a format. *)
Definition stored_format (thumbnail_format : ThumbnailFormat)
    (content_type : string) (resized_width height : Z)
    (thumbnailed_bytes : bytes) : StoredThumbnailFormat :=
  {| Stored.extension := extension thumbnail_format;
     Stored.content_type := content_type;
     Stored.max_width := max_width thumbnail_format;
     Stored.max_height := max_height thumbnail_format;
     Stored.animated := animated thumbnail_format;
     Stored.width := resized_width;
     Stored.height := height;
     Stored.byte_size := Z.of_nat (length thumbnailed_bytes) |}.

(** Lines 56-109: the body of the [for] loop. *)
Definition resize_and_upload (env : Env) (image_bytes : bytes)
    (thumbnail_format : ThumbnailFormat) : M unit :=
  a ← gets image_attachment;
  log (LogResizing (max_width thumbnail_format) (max_height thumbnail_format)
         (original_width_px a) (original_height_px a));;
  resized ← thumbnail env image_bytes
               (max_width thumbnail_format) (max_height thumbnail_format)
               (load_opts a thumbnail_format) pyvips.DOWN;
  thumbnailed_bytes ← write_image env resized
      ("." +:+ extension thumbnail_format +:+ "[" +:+ opts thumbnail_format +:+ "]");
  match guess_type env ("image." +:+ extension thumbnail_format) with
  | None => raise AssertionError
  | Some content_type =>
      let thumbnail_path := get_image_thumbnail_path env a thumbnail_format in
      log (LogUploading (Z.of_nat (length thumbnailed_bytes)) thumbnail_path);;
      upload env thumbnail_path content_type thumbnailed_bytes;;
      height ← vips (output_height thumbnail_format resized);
      append_thumbnail_metadata
        (stored_format thumbnail_format content_type (pyvips.width resized)
           height thumbnailed_bytes);;
      modify (λ s, with_written_images (written_images s + 1) s)
  end.

(** Lines 111-119: the [except pyvips.Error] clause.  [Some v] stands for
    [return v], [None] for falling out of the [try] statement. *)
Definition on_pyvips_Error (e : exception) : M (option Z) :=
  log (LogException e);;
  written ← gets written_images;
  a ← gets image_attachment;
  if (written =? 0) && (Z.of_nat (length (thumbnail_metadata a)) =? 0) then
    delete_row;;
    mret (Some 0)
  else mret None.

Definition ensure_thumbnails (env : Env) : M Z :=
  a ← gets image_attachment;
  let needed_thumbnails := missing_thumbnails env a in
  match needed_thumbnails with
  | [] => mret 0
  | _ :: _ =>
      modify (with_written_images 0);;
      image_bytes ← fetch_contents env (path_id a);
      returned ← try_except
        (for_each needed_thumbnails (resize_and_upload env image_bytes);;
         mret None)
        is_pyvips_Error on_pyvips_Error;
      match returned with
      | Some v => mret v
      | None =>
          save ["thumbnail_metadata"];;
          gets written_images
      end
  end.

(** What follows the loop: the [except] clause when the loop raised
    [pyvips.Error], then lines 121-123. *)
Definition after_loop (loop_result : outcome unit * State) : outcome Z * State :=
  match loop_result with
  | (Normal _, s2) => (save ["thumbnail_metadata"];; gets written_images) s2
  | (Raise e, s2) =>
      if is_pyvips_Error e then
        (returned ← on_pyvips_Error e;
         match returned with
         | Some v => mret v
         | None => save ["thumbnail_metadata"];; gets written_images
         end) s2
      else (Raise e, s2)
  end.

(** ** What a successful iteration appends *)

(** The entry [resize_and_upload] appends for a format when none of its
    steps raises: a function of the collaborators' answers only. *)
Definition derivative (env : Env) (a : ImageAttachment) (image_bytes : bytes)
    (f : ThumbnailFormat) : option StoredThumbnailFormat :=
  match thumbnail_buffer env image_bytes (max_width f) (max_height f)
          (load_opts a f) pyvips.DOWN with
  | inr resized =>
      match write_to_buffer env resized
              ("." +:+ extension f +:+ "[" +:+ opts f +:+ "]"),
            guess_type env ("image." +:+ extension f),
            output_height f resized with
      | inr thumbnailed_bytes, Some content_type, inr height =>
          Some (stored_format f content_type (pyvips.width resized) height
                  thumbnailed_bytes)
      | _, _, _ => None
      end
  | inl _ => None
  end.

Definition metadata (s : State) : list StoredThumbnailFormat :=
  thumbnail_metadata (image_attachment s).

(** The call to [thumbnail_buffer] made for a format (lines 74-80). *)
Definition resize_call (a : ImageAttachment) (f : ThumbnailFormat) : Event :=
  EvResize (max_width f) (max_height f) (load_opts a f) pyvips.DOWN.

Definition is_resize (ev : Event) : bool :=
  match ev with EvResize _ _ _ _ => true | _ => false end.

Definition is_write (ev : Event) : bool :=
  match ev with EvSave _ _ | EvDelete _ => true | _ => false end.

(** The run has fetched the original as [image_bytes], has completed the
    formats [done] and stands, in state [s2], before the format [f];
    [rest] is still to come. *)
Definition reaches (env : Env) (s : State) (done : list ThumbnailFormat)
    (f : ThumbnailFormat) (rest : list ThumbnailFormat) (image_bytes : bytes)
    (s2 : State) : Prop :=
  missing_thumbnails env (image_attachment s) = done ++ f :: rest
  ∧ ∃ s1,
      fetch_contents env (path_id (image_attachment s))
        (with_written_images 0 s) = (Normal image_bytes, s1)
      ∧ for_each done (resize_and_upload env image_bytes) s1 = (Normal (), s2).

(** ** The missing-format resolver *)

(** A stored entry stands for a catalogue entry when the four fields
    copied from it agree. *)
Definition same_format (f : ThumbnailFormat) (e : StoredThumbnailFormat) : bool :=
  String.eqb (extension f) (Stored.extension e)
  && (max_width f =? Stored.max_width e)
  && (max_height f =? Stored.max_height e)
  && Bool.eqb (animated f) (Stored.animated e).

(** Modelled from the spec: [zerver.lib.thumbnail.missing_thumbnails]
    and the catalogue it reads are not part of the worker's file.  For
    each catalogue entry, in catalogue order, keep it unless an entry with
    the same (extension, max_width, max_height, animated) already exists
    in [thumbnail_metadata]; the frame count plays no part. *)
Definition missing (catalogue : list ThumbnailFormat) (a : ImageAttachment)
    : list ThumbnailFormat :=
  List.filter (λ f, negb (existsb (same_format f) (thumbnail_metadata a)))
    catalogue.

(** ** The resize *)

(** Modelled from the spec: [pyvips.Image.thumbnail_buffer] and its [size]
    argument belong to libvips, whose code is not in the repository (the
    comments at lines 50-57 say what the call is relied on to do).  The
    loaded image is scaled by one factor on both axes so that it fits
    within the box [w] x [h], keeping its aspect ratio; with [Size.DOWN]
    it is never enlarged, with [Size.UP] never reduced, [Size.BOTH] does
    either and [Size.FORCE] fills the box.  Where the loaded image carries
    a "page-height" field, the factor is computed from that height and the
    field is scaled along with the image. *)
Module vips_model.
Import pyvips.

(** Height of one page: the "page-height" field when the image has it,
    the whole height otherwise. *)
Definition page_height (im : Image) : Z :=
  match fields im !! "page-height" with
  | Some ph => ph
  | None => height im
  end.

(** A loaded image has positive sides, and a whole number of pages. *)
Definition well_formed (im : Image) : Prop :=
  0 < width im ∧ 0 < page_height im ∧ 0 < height im
  ∧ (page_height im | height im).

(** The shrink factor [num/den] that makes a page just fit the box: the
    larger of [width/w] and [page_height/h]. *)
Definition shrink (im : Image) (w h : Z) : Z * Z :=
  if page_height im * w <=? width im * h then (width im, w)
  else (page_height im, h).

Definition clamp (size : Size) (factor : Z * Z) : Z * Z :=
  let '(num, den) := factor in
  match size with
  | DOWN => if num <? den then (1, 1) else (num, den)
  | UP => if den <? num then (1, 1) else (num, den)
  | BOTH | FORCE => (num, den)
  end.

(** [x / (num/den)], rounded to nearest, at least one pixel. *)
Definition scaled (x : Z) (factor : Z * Z) : Z :=
  let '(num, den) := factor in
  Z.max 1 ((2 * x * den + num) / (2 * num)).

(** Width and page height of the thumbnail. *)
Definition thumbnail_size (im : Image) (w h : Z) (size : Size) : Z * Z :=
  match size with
  | FORCE => (w, h)
  | _ =>
      let factor := clamp size (shrink im w h) in
      (scaled (width im) factor, scaled (page_height im) factor)
  end.

Definition thumbnail_image (im : Image) (w h : Z) (size : Size) : Image :=
  let '(w', ph') := thumbnail_size im w h size in
  {| width := w';
     height := ph' * (height im / page_height im);
     fields := match fields im !! "page-height" with
               | Some _ => <["page-height" := ph']> (fields im)
               | None => fields im
               end |}.

(** [load buf option_string] is the image the loader makes of the
    buffer, or the message of its [pyvips.Error]. *)
Definition thumbnail_buffer (load : bytes → string → string + Image)
    (buf : bytes) (w h : Z) (option_string : string) (size : Size)
    : string + Image :=
  match load buf option_string with
  | inr im => inr (thumbnail_image im w h size)
  | inl msg => inl msg
  end.
End vips_model.

(** ** A concrete world

    A small instance of the collaborators, used to run the worker on
    concrete attachments. *)
Module Sample.
Definition jpg_100 : ThumbnailFormat :=
  {| extension := "jpg"; max_width := 100; max_height := 100;
     animated := false; opts := "Q=80" |}.
Definition webp_100_anim : ThumbnailFormat :=
  {| extension := "webp"; max_width := 100; max_height := 100;
     animated := true; opts := "Q=60" |}.
Definition xyz_100 : ThumbnailFormat :=
  {| extension := "xyz"; max_width := 100; max_height := 100;
     animated := false; opts := "" |}.
Definition gif_100 : ThumbnailFormat :=
  {| extension := "gif"; max_width := 100; max_height := 100;
     animated := false; opts := "" |}.

Definition catalogue : list ThumbnailFormat := [jpg_100; webp_100_anim].

Definition content_types (name : string) : option string :=
  if String.eqb name "image.jpg" then Some "image/jpeg"
  else if String.eqb name "image.webp" then Some "image/webp"
  else if String.eqb name "image.gif" then Some "image/gif"
  else None.

Definition thumbnail_path (a : ImageAttachment) (f : ThumbnailFormat) : string :=
  "thumbnail/" +:+ path_id a +:+ "/" +:+ extension f
    +:+ (if animated f then "-anim" else "").

Definition read_file (path : string) (st : gmap string StoredFile)
    : string + bytes :=
  match st !! path with
  | Some f => inr (file_content f)
  | None => inl ("no such file: " +:+ path)
  end.

(** Uploads to the paths in [failing] are refused. *)
Definition write_file (failing : list string) (path content_type : string)
    (data : bytes) (st : gmap string StoredFile)
    : string + gmap string StoredFile :=
  if existsb (String.eqb path) failing then inl ("upload failed: " +:+ path)
  else inr (<[path := {| file_content_type := Some content_type;
                         file_content := data |}]> st).

Definition byte_Z (b : byte) : Z := Z.of_N (Byte.to_N b).

(** A three-byte picture format: width, height of one frame, number of
    frames.  "n=-1" loads every frame, anything else the first one. *)
Definition load (buf : bytes) (option_string : string) : string + pyvips.Image :=
  match buf with
  | [w; h; n] =>
      if (0 <? byte_Z w) && (0 <? byte_Z h) && (0 <? byte_Z n) then
        let pages := if String.eqb option_string "n=-1" then byte_Z n else 1 in
        inr {| pyvips.width := byte_Z w;
               pyvips.height := byte_Z h * pages;
               pyvips.fields := {["page-height" := byte_Z h]} |}
      else inl "buffer is not in a known format"
  | _ => inl "buffer is not in a known format"
  end.

(** This build of the library has no GIF writer. *)
Definition save_image (im : pyvips.Image) (suffix : string) : string + bytes :=
  if String.prefix ".gif" suffix then inl "gifsave: no such operation"
  else inr [xff; xd8; xff; xd9].

Definition env (formats : list ThumbnailFormat) (failing : list string) : Env :=
  {| missing_thumbnails := missing formats;
     guess_type := content_types;
     get_image_thumbnail_path := thumbnail_path;
     save_attachment_contents := read_file;
     upload_message_attachment := write_file failing;
     thumbnail_buffer := vips_model.thumbnail_buffer load;
     write_to_buffer := save_image |}.

Definition attachment (frame_count : Z)
    (md : list StoredThumbnailFormat) : ImageAttachment :=
  {| id := 7; path_id := "2/ab/pic"; original_width_px := 50;
     original_height_px := 200; frames := frame_count;
     thumbnail_metadata := md |}.

(** A state in which the instance has just been read from its row and
    the original at [path_id] holds [original]. *)
Definition state (a : ImageAttachment) (original : bytes) : State :=
  {| image_attachment := a;
     table := {[ id a := a ]};
     storage := {[ path_id a := {| file_content_type := None;
                                    file_content := original |} ]};
     written_images := 0;
     trace := [] |}.

(** A row whose dimensions were never filled in, and the same instance
    over that row. *)
Definition stale_row (a : ImageAttachment) : ImageAttachment :=
  {| id := id a; path_id := path_id a; original_width_px := 0;
     original_height_px := 0; frames := frames a;
     thumbnail_metadata := thumbnail_metadata a |}.

Definition stale_state (a : ImageAttachment) (original : bytes) : State :=
  with_table {[ id a := stale_row a ]} (state a original).

(** An entry left by an earlier catalogue. *)
Definition old_jpg_300 : StoredThumbnailFormat :=
  {| Stored.extension := "jpg"; Stored.content_type := "image/jpeg";
     Stored.max_width := 300; Stored.max_height := 300;
     Stored.animated := false; Stored.width := 50; Stored.height := 200;
     Stored.byte_size := 4 |}.

(** The entries of a complete run over [catalogue] on a 50 x 200 still. *)
Definition stored_jpg_100 : StoredThumbnailFormat :=
  {| Stored.extension := "jpg"; Stored.content_type := "image/jpeg";
     Stored.max_width := 100; Stored.max_height := 100;
     Stored.animated := false; Stored.width := 25; Stored.height := 100;
     Stored.byte_size := 4 |}.
Definition stored_webp_100_anim : StoredThumbnailFormat :=
  {| Stored.extension := "webp"; Stored.content_type := "image/webp";
     Stored.max_width := 100; Stored.max_height := 100;
     Stored.animated := true; Stored.width := 25; Stored.height := 100;
     Stored.byte_size := 4 |}.

(** The entries of a complete run over [catalogue] on six frames of
    50 x 20. *)
Definition stored_jpg_clip : StoredThumbnailFormat :=
  {| Stored.extension := "jpg"; Stored.content_type := "image/jpeg";
     Stored.max_width := 100; Stored.max_height := 100;
     Stored.animated := false; Stored.width := 50; Stored.height := 20;
     Stored.byte_size := 4 |}.
Definition stored_webp_clip : StoredThumbnailFormat :=
  {| Stored.extension := "webp"; Stored.content_type := "image/webp";
     Stored.max_width := 100; Stored.max_height := 100;
     Stored.animated := true; Stored.width := 50; Stored.height := 20;
     Stored.byte_size := 4 |}.

(** 50 x 200, one frame. *)
Definition tall : bytes := [x32; xc8; x01].
(** 50 x 20, one frame. *)
Definition small : bytes := [x32; x14; x01].
(** 50 x 20, six frames. *)
Definition clip : bytes := [x32; x14; x06].
Definition corrupt : bytes := [x00].

Definition world : Env := env catalogue [].
Definition still : State := state (attachment 1 []) tall.
Definition thumb : State := state (attachment 1 []) small.
Definition animation : State := state (attachment 6 []) clip.
End Sample.

(** ** The calls of a run, one by one *)

Definition is_fetch (ev : Event) : bool :=
  match ev with EvFetch _ => true | _ => false end.

Definition is_upload (ev : Event) : bool :=
  match ev with EvUpload _ _ _ => true | _ => false end.

(** The instance after [thumbnail_metadata.append(e)]. *)
Definition appended (e : StoredThumbnailFormat) (a : ImageAttachment)
    : ImageAttachment :=
  set_thumbnail_metadata (thumbnail_metadata a ++ [e]) a.

(** What an iteration of the loop that runs to its end logs and calls, in
    order (lines 58-93), for the format [f] whose entry is [e]. *)
Definition iteration_events (env : Env) (a : ImageAttachment)
    (f : ThumbnailFormat) (e : StoredThumbnailFormat) : list Event :=
  [EvLog (LogResizing (max_width f) (max_height f)
            (original_width_px a) (original_height_px a));
   resize_call a f;
   EvEncode ("." +:+ extension f +:+ "[" +:+ opts f +:+ "]");
   EvLog (LogUploading (Stored.byte_size e) (get_image_thumbnail_path env a f));
   EvUpload (get_image_thumbnail_path env a f) (Stored.content_type e)
     (Stored.byte_size e)].

(** The same for consecutive iterations; each one sees the instance with
    the entries appended so far. *)
Fixpoint loop_events (env : Env) (a : ImageAttachment)
    (fs : list ThumbnailFormat) (es : list StoredThumbnailFormat)
    : list Event :=
  match fs, es with
  | f :: fs', e :: es' =>
      iteration_events env a f e ++ loop_events env (appended e a) fs' es'
  | _, _ => []
  end.

(** [uploads env a fs es st st']: the backend [st'] is the backend [st]
    after the derivatives recorded by the entries [es], made for the
    formats [fs], have been handed to it one after the other and taken by
    it: each at the path computed for its format from the instance with
    the entries appended so far, with the entry's content type and a
    buffer of the entry's byte size. *)
Inductive uploads (env : Env) :
    ImageAttachment → list ThumbnailFormat → list StoredThumbnailFormat →
    gmap string StoredFile → gmap string StoredFile → Prop :=
| uploads_nil a st : uploads env a [] [] st st
| uploads_cons a f fs e es data st st1 st2 :
    upload_message_attachment env (get_image_thumbnail_path env a f)
      (Stored.content_type e) data st = inr st1 →
    Stored.byte_size e = Z.of_nat (length data) →
    uploads env (appended e a) fs es st1 st2 →
    uploads env a (f :: fs) (e :: es) st st2.

(** ** [ThumbnailWorker.consume] *)

(** What [consume] itself hands to the logger (lines 29 and 33-37). *)
Inductive WorkerRecord :=
| RowMissing (pk : Z)
| Processed (uploaded_thumbnails elapsed_ms : Z).

(** The process as [consume] sees it: the state [ensure_thumbnails] works
    on, and the records [consume] has logged. *)
Record Worker := {
  world : State;
  records : list WorkerRecord;
}.

(** What [consume] can raise: [KeyError] from [event["id"]], and whatever
    escapes [ensure_thumbnails]. *)
Inductive worker_exception :=
| KeyError (key : string)
| Uncaught (e : exception).

Inductive consumed :=
| Returned
| Raised (e : worker_exception).

(** How control leaves the [with] block of [consume]: by the [return] of
    the [except] clause, off its end with [uploaded_thumbnails] bound, or
    by an exception. *)
Inductive block_exit :=
| EarlyReturn
| BlockEnd (uploaded_thumbnails : Z)
| BlockRaised (e : worker_exception).

Definition log_record (r : WorkerRecord) (w : Worker) : Worker :=
  {| world := world w; records := records w ++ [r] |}.

Definition with_world (s : State) (w : Worker) : Worker :=
  {| world := s; records := records w |}.

(** [with transaction.atomic(savepoint=False): body], as the outermost
    transaction: when an exception leaves the block the table is what it
    was on entry; what was uploaded or logged stays. *)
Definition atomic (body : Worker → block_exit * Worker) (w : Worker)
    : block_exit * Worker :=
  match body w with
  | (BlockRaised e, w') =>
      (BlockRaised e, with_world (with_table (table (world w)) (world w')) w')
  | r => r
  end.

(** Lines 26-31, the body of the [with] block.  [event] is the dictionary
    delivered by the queue.  [get(id=...)] binds a fresh instance holding
    the row's values; the row lock taken by [select_for_update] has no
    counterpart in a single-threaded model. *)
Definition lock_and_ensure (env : Env) (event : gmap string Z) (w : Worker)
    : block_exit * Worker :=
  match event !! "id" with
  | None => (BlockRaised (KeyError "id"), w)
  | Some pk =>
      match table (world w) !! pk with
      | None => (EarlyReturn, log_record (RowMissing pk) w)
      | Some row =>
          match ensure_thumbnails env (with_image_attachment row (world w)) with
          | (Normal uploaded_thumbnails, s') =>
              (BlockEnd uploaded_thumbnails, with_world s' w)
          | (Raise e, s') => (BlockRaised (Uncaught e), with_world s' w)
          end
      end
  end.

(** Lines 23-37.  The two readings of the clock are outside the model:
    [elapsed_ms] stands for [(end - start) * 1000] as [%d] prints it. *)
Definition consume (env : Env) (elapsed_ms : Z) (event : gmap string Z)
    (w : Worker) : consumed * Worker :=
  match atomic (lock_and_ensure env event) w with
  | (EarlyReturn, w') => (Returned, w')
  | (BlockEnd uploaded_thumbnails, w') =>
      (Returned, log_record (Processed uploaded_thumbnails elapsed_ms) w')
  | (BlockRaised e, w') => (Raised e, w')
  end.

(** ** More of the concrete world *)

Module Delivery.
(** A loader for a format without pages: no "page-height" field. *)
Definition load_still (buf : bytes) (option_string : string)
    : string + pyvips.Image :=
  match buf with
  | [w; h; _] =>
      if (0 <? Sample.byte_Z w) && (0 <? Sample.byte_Z h) then
        inr {| pyvips.width := Sample.byte_Z w;
               pyvips.height := Sample.byte_Z h;
               pyvips.fields := ∅ |}
      else inl "buffer is not in a known format"
  | _ => inl "buffer is not in a known format"
  end.

(** The sample collaborators with that loader, and a catalogue whose first
    format is animated. *)
Definition still_world : Env :=
  {| missing_thumbnails := missing [Sample.webp_100_anim; Sample.jpg_100];
     guess_type := Sample.content_types;
     get_image_thumbnail_path := Sample.thumbnail_path;
     save_attachment_contents := Sample.read_file;
     upload_message_attachment := Sample.write_file [];
     thumbnail_buffer := vips_model.thumbnail_buffer load_still;
     write_to_buffer := Sample.save_image |}.

(** A backend that refuses the animated derivative. *)
Definition refusing_world : Env :=
  Sample.env Sample.catalogue ["thumbnail/2/ab/pic/webp-anim"].

(** A catalogue with a format this build cannot encode. *)
Definition gif_world : Env :=
  Sample.env [Sample.jpg_100; Sample.gif_100; Sample.webp_100_anim] [].

(** The attachment's original has been lost. *)
Definition lost : State := with_storage ∅ Sample.still.

Definition broken : State := Sample.state (Sample.attachment 1 []) Sample.corrupt.

(** A worker that has logged nothing yet, and events for the row 7, for a
    row that does not exist, and without an id. *)
Definition worker (s : State) : Worker := {| world := s; records := [] |}.
Definition event_7 : gmap string Z := {[ "id" := 7 ]}.
Definition event_8 : gmap string Z := {[ "id" := 8 ]}.
Definition event_empty : gmap string Z := ∅.
End Delivery.

(** ** Proof tools *)

Ltac unfold_M :=
  unfold upload, write_image, thumbnail, fetch_contents, save, delete_row,
    append_thumbnail_metadata, vips, log, emit, modify, gets, raise,
    mbind, M_bind, mret, M_ret in *.

(** Closes the goal left by one exit of the loop body. *)
Ltac body_exit :=
  let H := fresh in
  intros H; injection H as <- <-; simpl;
  repeat split; eauto;
  try (eexists; split; [rewrite <- ?app_assoc; reflexivity | split; reflexivity]).

(** Closes the goals left by a path through the loop body, for
    [resize_and_upload_events]. *)
Ltac body_events_exit :=
  let H := fresh in
  intros H; injection H as <- <-; simpl;
  eexists; (split; [rewrite <- ?app_assoc; reflexivity|]);
  (split; [reflexivity|]);
  (split; [let Hnil := fresh in
           intros Hnil; first [reflexivity | discriminate Hnil]|]);
  simpl.

(** * Properties *)

(** ** One iteration *)

Lemma set_thumbnail_metadata_id a :
  set_thumbnail_metadata (thumbnail_metadata a) a = a.
Proof. by destruct a. Qed.

Lemma set_thumbnail_metadata_twice md md' a :
  set_thumbnail_metadata md (set_thumbnail_metadata md' a)
  = set_thumbnail_metadata md a.
Proof. reflexivity. Qed.

Lemma load_opts_set_metadata md a f :
  load_opts (set_thumbnail_metadata md a) f = load_opts a f.
Proof. reflexivity. Qed.

Lemma resize_and_upload_spec env image_bytes f s r s' :
  resize_and_upload env image_bytes f s = (r, s') →
  table s' = table s
  ∧ image_attachment s'
    = set_thumbnail_metadata (metadata s') (image_attachment s)
  ∧ (∃ evs, trace s' = trace s ++ evs
            ∧ List.filter is_resize evs = [resize_call (image_attachment s) f]
            ∧ List.filter is_write evs = [])
  ∧ match r with
    | Normal _ =>
        ∃ e, derivative env (image_attachment s) image_bytes f = Some e
             ∧ metadata s' = metadata s ++ [e]
             ∧ written_images s' = written_images s + 1
    | Raise ex =>
        metadata s' = metadata s ∧ written_images s' = written_images s
    end.
Proof.
  unfold resize_and_upload, derivative, metadata. unfold_M.
  destruct s as [a t st w tr]; simpl.
  pose proof (set_thumbnail_metadata_id a) as Ha.
  destruct (thumbnail_buffer _ _ _ _ _ _) as [m1|resized]; simpl;
    [body_exit|].
  destruct (write_to_buffer _ _ _) as [m2|tb]; simpl; [body_exit|].
  destruct (guess_type _ _) as [ct|]; simpl; [|body_exit].
  destruct (upload_message_attachment _ _ _ _ _) as [m4|st']; simpl;
    [body_exit|].
  destruct (output_height _ _) as [m5|h]; simpl; body_exit.
Qed.

(** The two exits of the body that are not [pyvips.Error]. *)
Lemma resize_and_upload_no_content_type env image_bytes f s resized data :
  thumbnail_buffer env image_bytes (max_width f) (max_height f)
    (load_opts (image_attachment s) f) pyvips.DOWN = inr resized →
  write_to_buffer env resized ("." +:+ extension f +:+ "[" +:+ opts f +:+ "]")
    = inr data →
  guess_type env ("image." +:+ extension f) = None →
  ∃ s', resize_and_upload env image_bytes f s = (Raise AssertionError, s').
Proof.
  intros E1 E2 E3. unfold resize_and_upload. unfold_M. simpl.
  rewrite E1; simpl. rewrite E2; simpl. rewrite E3. eauto.
Qed.

Lemma resize_and_upload_upload_failure env image_bytes f s resized data ct msg :
  thumbnail_buffer env image_bytes (max_width f) (max_height f)
    (load_opts (image_attachment s) f) pyvips.DOWN = inr resized →
  write_to_buffer env resized ("." +:+ extension f +:+ "[" +:+ opts f +:+ "]")
    = inr data →
  guess_type env ("image." +:+ extension f) = Some ct →
  upload_message_attachment env
    (get_image_thumbnail_path env (image_attachment s) f) ct data (storage s)
    = inl msg →
  ∃ s', resize_and_upload env image_bytes f s = (Raise (StorageError msg), s').
Proof.
  intros E1 E2 E3 E4. unfold resize_and_upload. unfold_M. simpl.
  rewrite E1; simpl. rewrite E2; simpl. rewrite E3; simpl. rewrite E4. eauto.
Qed.

(** ** The loop *)

Lemma for_each_cons {A} (x : A) rest body s :
  for_each (x :: rest) body s
  = match body x s with
    | (Normal _, s1) => for_each rest body s1
    | (Raise e, s1) => (Raise e, s1)
    end.
Proof. reflexivity. Qed.

Lemma for_each_app {A} (xs ys : list A) body s :
  for_each (xs ++ ys) body s
  = match for_each xs body s with
    | (Normal _, s1) => for_each ys body s1
    | (Raise e, s1) => (Raise e, s1)
    end.
Proof.
  revert s. induction xs as [|x xs IH]; intros s; [reflexivity|].
  rewrite <- app_comm_cons, !for_each_cons.
  destruct (body x s) as [[[]|e] s1]; [apply IH | reflexivity].
Qed.

(** The loop invariant: after [k] completed iterations the instance holds
    [k] more entries, one per format and in the order of the formats, the
    counter has advanced by [k], and no row has been touched. *)
Lemma for_each_spec env image_bytes needed s r s' :
  for_each needed (resize_and_upload env image_bytes) s = (r, s') →
  ∃ (k : nat) new evs,
    metadata s' = metadata s ++ new
    ∧ length new = k
    ∧ written_images s' = written_images s + Z.of_nat k
    ∧ table s' = table s
    ∧ image_attachment s'
      = set_thumbnail_metadata (metadata s') (image_attachment s)
    ∧ Forall2 (λ f e, derivative env (image_attachment s) image_bytes f = Some e)
        (take k needed) new
    ∧ trace s' = trace s ++ evs
    ∧ List.filter is_write evs = []
    ∧ match r with
      | Normal _ =>
          k = length needed
          ∧ List.filter is_resize evs
            = map (resize_call (image_attachment s)) needed
      | Raise _ =>
          (k < length needed)%nat
          ∧ List.filter is_resize evs
            = map (resize_call (image_attachment s)) (take (S k) needed)
      end.
Proof.
  revert s. induction needed as [|f needed IH]; intros s.
  - intros [= <- <-]. exists 0%nat, [], []. simpl.
    rewrite !app_nil_r, Z.add_0_r.
    repeat split; auto using set_thumbnail_metadata_id.
    symmetry. apply set_thumbnail_metadata_id.
  - rewrite for_each_cons.
    destruct (resize_and_upload env image_bytes f s) as [[[]|ex] s1] eqn:Hbody;
      apply resize_and_upload_spec in Hbody
        as (Ht & Ha & (evs1 & Htr & Hrs & Hws) & Hr).
    + destruct Hr as (e & He & Hmd & Hw).
      intros Hloop. apply IH in Hloop
        as (k & new & evs & Hmd' & Hlen & Hw' & Ht' & Ha' & Hall & Htr' & Hws' & Hr').
      exists (S k), (e :: new), (evs1 ++ evs).
      rewrite Ha in Ha', Hall, Hr'.
      rewrite set_thumbnail_metadata_twice in Ha'.
      split. { rewrite Hmd', Hmd, <- app_assoc. reflexivity. }
      split. { simpl. by rewrite Hlen. }
      split. { rewrite Hw', Hw. lia. }
      split. { by rewrite Ht'. }
      split. { exact Ha'. }
      split. { simpl. constructor; [exact He|]. exact Hall. }
      split. { rewrite Htr', Htr, <- app_assoc. reflexivity. }
      split. { by rewrite List.filter_app, Hws, Hws'. }
      rewrite List.filter_app, Hrs.
      destruct r; destruct Hr' as [Hk ->]; simpl; split; auto; lia.
    + intros [= <- <-]. destruct Hr as [Hmd Hw].
      exists 0%nat, [], evs1. simpl. rewrite Hmd, app_nil_r, Z.add_0_r.
      repeat split; auto; try lia.
      by rewrite <- Hmd.
Qed.

(** ** Fetching, saving, deleting *)

Lemma fetch_contents_spec env path s r s' :
  fetch_contents env path s = (r, s') →
  s' = with_trace (trace s ++ [EvFetch path]) s
  ∧ match r with
    | Normal b => save_attachment_contents env path (storage s) = inr b
    | Raise e =>
        ∃ msg, e = StorageError msg
               ∧ save_attachment_contents env path (storage s) = inl msg
    end.
Proof.
  unfold_M. simpl.
  destruct (save_attachment_contents env path (storage s)) as [msg|b];
    intros [= <- <-]; eauto.
Qed.

Lemma save_thumbnail_metadata_found s row :
  table s !! id (image_attachment s) = Some row →
  save ["thumbnail_metadata"] s
  = (Normal (),
     with_table
       (<[id (image_attachment s) := set_thumbnail_metadata (metadata s) row]>
          (table s))
       (with_trace
          (trace s ++ [EvSave (id (image_attachment s)) ["thumbnail_metadata"]])
          s)).
Proof. intros Hrow. unfold_M. simpl. by rewrite Hrow. Qed.

Lemma save_not_found s update_fields :
  table s !! id (image_attachment s) = None →
  save update_fields s
  = (Raise (DatabaseError "Save with update_fields did not affect any rows."),
     with_trace
       (trace s ++ [EvSave (id (image_attachment s)) update_fields]) s).
Proof. intros Hrow. unfold_M. simpl. by rewrite Hrow. Qed.

(** ** The shape of a run *)

Lemma ensure_thumbnails_early env s :
  missing_thumbnails env (image_attachment s) = [] →
  ensure_thumbnails env s = (Normal 0, s).
Proof. intros Hneeded. unfold ensure_thumbnails. unfold_M. by rewrite Hneeded. Qed.

Lemma ensure_thumbnails_fetch_failed env s e s1 :
  missing_thumbnails env (image_attachment s) ≠ [] →
  fetch_contents env (path_id (image_attachment s)) (with_written_images 0 s)
    = (Raise e, s1) →
  ensure_thumbnails env s = (Raise e, s1).
Proof.
  intros Hneeded Hfetch. unfold ensure_thumbnails.
  unfold mbind at 1, M_bind at 1, gets at 1.
  destruct (missing_thumbnails env (image_attachment s)); [done|].
  unfold mbind, M_bind, modify. by rewrite Hfetch.
Qed.

Lemma ensure_thumbnails_fetched env s image_bytes s1 :
  missing_thumbnails env (image_attachment s) ≠ [] →
  fetch_contents env (path_id (image_attachment s)) (with_written_images 0 s)
    = (Normal image_bytes, s1) →
  ensure_thumbnails env s
  = after_loop
      (for_each (missing_thumbnails env (image_attachment s))
         (resize_and_upload env image_bytes) s1).
Proof.
  intros Hneeded Hfetch. unfold ensure_thumbnails, after_loop.
  unfold mbind at 1, M_bind at 1, gets at 1.
  destruct (missing_thumbnails env (image_attachment s)) as [|f rest] eqn:E;
    [done|].
  unfold mbind, M_bind, modify, try_except, mret, M_ret. rewrite Hfetch.
  destruct (for_each (f :: rest) (resize_and_upload env image_bytes) s1)
    as [[[]|e] s2]; [reflexivity|].
  destruct (is_pyvips_Error e); reflexivity.
Qed.

(** When the body raises at [f], the loop stops there. *)
Lemma ensure_thumbnails_raised_at env s done f rest image_bytes s2 e s3 :
  reaches env s done f rest image_bytes s2 →
  resize_and_upload env image_bytes f s2 = (Raise e, s3) →
  ensure_thumbnails env s = after_loop (Raise e, s3).
Proof.
  intros (Hneeded & s1 & Hfetch & Hdone) Hbody.
  rewrite (ensure_thumbnails_fetched env s image_bytes s1); auto.
  - by rewrite Hneeded, for_each_app, Hdone, for_each_cons, Hbody.
  - rewrite Hneeded. by destruct done.
Qed.

(** The state in which the run stands before [f]. *)
Lemma reaches_spec env s done f rest image_bytes s2 :
  reaches env s done f rest image_bytes s2 →
  ∃ new evs,
    metadata s2 = metadata s ++ new
    ∧ Forall2 (λ f e, derivative env (image_attachment s) image_bytes f = Some e)
        done new
    ∧ written_images s2 = Z.of_nat (length done)
    ∧ table s2 = table s
    ∧ image_attachment s2
      = set_thumbnail_metadata (metadata s2) (image_attachment s)
    ∧ save_attachment_contents env (path_id (image_attachment s)) (storage s)
      = inr image_bytes
    ∧ trace s2 = trace s ++ EvFetch (path_id (image_attachment s)) :: evs
    ∧ List.filter is_write evs = []
    ∧ List.filter is_resize evs = map (resize_call (image_attachment s)) done.
Proof.
  intros (Hneeded & s1 & Hfetch & Hdone).
  apply fetch_contents_spec in Hfetch as [-> Hbytes]. simpl in Hbytes.
  apply for_each_spec in Hdone
    as (k & new & evs & Hmd & Hlen & Hw & Ht & Ha & Hall & Htr & Hws & -> & Hrs).
  rewrite firstn_all in Hall. simpl in *.
  exists new, evs. rewrite <- app_assoc in Htr.
  repeat split; auto.
Qed.

Lemma on_pyvips_Error_eq e s :
  on_pyvips_Error e s
  = let logged := with_trace (trace s ++ [EvLog (LogException e)]) s in
    if (written_images s =? 0)
       && (Z.of_nat (length (thumbnail_metadata (image_attachment s))) =? 0)
    then (Normal (Some 0),
          with_table (delete (id (image_attachment s)) (table s))
            (with_trace (trace logged ++ [EvDelete (id (image_attachment s))])
               logged))
    else (Normal None, logged).
Proof.
  unfold on_pyvips_Error, delete_row. unfold_M. simpl.
  by destruct ((written_images s =? 0) && _).
Qed.

(** What the tail of the function does to the state the loop left. *)
Lemma after_loop_spec r2 s2 r s' :
  after_loop (r2, s2) = (r, s') →
  image_attachment s' = image_attachment s2
  ∧ ∃ evs,
      trace s' = trace s2 ++ evs
      ∧ List.filter is_resize evs = []
      ∧ match r with
        | Normal n =>
            (n = 0
             ∧ written_images s2 = 0 ∧ metadata s2 = []
             ∧ (∃ msg, r2 = Raise (pyvips_Error msg))
             ∧ table s' = delete (id (image_attachment s2)) (table s2)
             ∧ List.filter is_write evs = [EvDelete (id (image_attachment s2))])
            ∨ (n = written_images s2
               ∧ (r2 = Normal ()
                  ∨ (∃ msg, r2 = Raise (pyvips_Error msg))
                    ∧ (written_images s2 ≠ 0 ∨ metadata s2 ≠ []))
               ∧ (∃ row,
                    table s2 !! id (image_attachment s2) = Some row
                    ∧ table s'
                      = <[id (image_attachment s2)
                          := set_thumbnail_metadata (metadata s2) row]> (table s2))
               ∧ List.filter is_write evs
                 = [EvSave (id (image_attachment s2)) ["thumbnail_metadata"]])
        | Raise e =>
            table s' = table s2 ∧ is_pyvips_Error e = false
        end.
Proof.
  assert (Hsave : ∀ s3 r3 s3',
    (save ["thumbnail_metadata"];; gets written_images) s3 = (r3, s3') →
    image_attachment s3' = image_attachment s3
    ∧ trace s3' = trace s3 ++ [EvSave (id (image_attachment s3)) ["thumbnail_metadata"]]
    ∧ match r3 with
      | Normal n =>
          n = written_images s3
          ∧ ∃ row, table s3 !! id (image_attachment s3) = Some row
                   ∧ table s3'
                     = <[id (image_attachment s3)
                         := set_thumbnail_metadata (metadata s3) row]> (table s3)
      | Raise e => table s3' = table s3 ∧ is_pyvips_Error e = false
      end).
  { intros s3 r3 s3'. unfold mbind, M_bind.
    destruct (table s3 !! id (image_attachment s3)) as [row|] eqn:Hrow.
    - rewrite (save_thumbnail_metadata_found s3 row Hrow).
      intros [= <- <-]. simpl.
      split; [reflexivity|]. split; [reflexivity|]. split; [reflexivity|].
      by exists row.
    - rewrite (save_not_found s3 _ Hrow). intros [= <- <-]. simpl.
      split; [reflexivity|]. split; [reflexivity|]. split; reflexivity. }
  unfold after_loop. destruct r2 as [[]|e].
  - intros H. apply Hsave in H as (Ha & Htr & Hr).
    split; [exact Ha|]. eexists. split; [exact Htr|]. split; [reflexivity|].
    destruct r as [n|e]; [|exact Hr].
    destruct Hr as [-> Hrow]. right.
    split; [reflexivity|]. split; [by left|]. split; [exact Hrow|reflexivity].
  - destruct e as [msg| |msg|msg]; simpl;
      try (intros [= <- <-]; split; [reflexivity|];
           exists []; rewrite app_nil_r; repeat split; reflexivity).
    unfold mbind at 1, M_bind at 1. rewrite on_pyvips_Error_eq.
    destruct ((written_images s2 =? 0)
              && (Z.of_nat (length (thumbnail_metadata (image_attachment s2))) =? 0))
      eqn:Hcond.
    + apply andb_prop in Hcond as [Hw Hlen].
      apply Z.eqb_eq in Hw. apply Z.eqb_eq in Hlen.
      unfold mret, M_ret.
      intros [= <- <-]. simpl. split; [reflexivity|].
      exists [EvLog (LogException (pyvips_Error msg));
              EvDelete (id (image_attachment s2))].
      split. { by rewrite <- app_assoc. }
      split; [reflexivity|]. left.
      split; [reflexivity|]. split; [exact Hw|].
      split. { unfold metadata.
               destruct (thumbnail_metadata _); [done|simpl in Hlen; lia]. }
      split; [eauto|]. split; reflexivity.
    + unfold mret, M_ret. intros H. apply Hsave in H as (Ha & Htr & Hr).
      simpl in *. split; [exact Ha|].
      exists [EvLog (LogException (pyvips_Error msg));
              EvSave (id (image_attachment s2)) ["thumbnail_metadata"]].
      split. { by rewrite Htr, <- app_assoc. }
      split; [reflexivity|].
      destruct r as [n|e]; [|exact Hr].
      destruct Hr as [-> Hrow]. right.
      split; [reflexivity|]. split; [|split; [exact Hrow|reflexivity]].
      right. split; [eauto|].
      apply andb_false_iff in Hcond as [Hw|Hlen].
      * left. by apply Z.eqb_neq in Hw.
      * right. apply Z.eqb_neq in Hlen. unfold metadata. intros Hnil.
        by rewrite Hnil in Hlen.
Qed.

(** Every run, whatever its outcome: the instance gains the entries of a
    prefix of the needed formats; a run that returns has either found
    nothing to do, or deleted the row, or saved the metadata; a run that
    raises leaves the table as it was. *)
Lemma ensure_thumbnails_spec env s r s' :
  ensure_thumbnails env s = (r, s') →
  let a := image_attachment s in
  let needed := missing_thumbnails env a in
  ∃ (k : nat) new evs,
    metadata s' = metadata s ++ new
    ∧ length new = k
    ∧ image_attachment s' = set_thumbnail_metadata (metadata s') a
    ∧ Forall2 (λ f e, ∃ image_bytes,
          save_attachment_contents env (path_id a) (storage s) = inr image_bytes
          ∧ derivative env a image_bytes f = Some e)
        (take k needed) new
    ∧ trace s' = trace s ++ evs
    ∧ (∃ j, List.filter is_resize evs = map (resize_call a) (take j needed))
    ∧ match r with
      | Normal n =>
          (n = 0 ∧ needed = [] ∧ s' = s)
          ∨ (n = 0 ∧ k = 0%nat ∧ needed ≠ [] ∧ metadata s = []
             ∧ table s' = delete (id a) (table s)
             ∧ List.filter is_write evs = [EvDelete (id a)])
          ∨ (n = Z.of_nat k ∧ needed ≠ []
             ∧ (k = length needed
                ∨ (k < length needed)%nat ∧ (k ≠ 0%nat ∨ metadata s ≠ []))
             ∧ (∃ row,
                  table s !! id a = Some row
                  ∧ table s'
                    = <[id a := set_thumbnail_metadata (metadata s') row]> (table s))
             ∧ List.filter is_write evs = [EvSave (id a) ["thumbnail_metadata"]])
      | Raise e => table s' = table s ∧ is_pyvips_Error e = false
      end.
Proof.
  intros Hrun a needed.
  destruct needed as [|f0 rest0] eqn:Hneeded.
  { rewrite ensure_thumbnails_early in Hrun by exact Hneeded.
    injection Hrun as <- <-.
    exists 0%nat, [], []. rewrite !app_nil_r. simpl.
    split; [reflexivity|]. split; [reflexivity|].
    split; [symmetry; apply set_thumbnail_metadata_id|].
    split; [constructor|]. split; [reflexivity|].
    split; [by exists 0%nat|]. by left. }
  assert (Hne : missing_thumbnails env (image_attachment s) ≠ []).
  { fold a. unfold needed in Hneeded. by rewrite Hneeded. }
  rewrite <- Hneeded. clear Hneeded f0 rest0.
  destruct (fetch_contents env (path_id a) (with_written_images 0 s))
    as [[image_bytes|e] s1] eqn:Hfetch.
  2:{ rewrite (ensure_thumbnails_fetch_failed env s e s1 Hne Hfetch) in Hrun.
      injection Hrun as <- <-.
      apply fetch_contents_spec in Hfetch as [-> (msg & -> & _)].
      exists 0%nat, [], [EvFetch (path_id a)]. rewrite app_nil_r. simpl.
      split; [reflexivity|]. split; [reflexivity|].
      split; [symmetry; apply set_thumbnail_metadata_id|].
      split; [constructor|]. split; [reflexivity|].
      split; [by exists 0%nat|]. split; reflexivity. }
  rewrite (ensure_thumbnails_fetched env s image_bytes s1 Hne Hfetch) in Hrun.
  apply fetch_contents_spec in Hfetch as [-> Hbytes]. simpl in Hbytes.
  destruct (for_each _ _ _) as [r2 s2] eqn:Hloop.
  apply for_each_spec in Hloop
    as (k & new & evs & Hmd & Hlen & Hw & Ht & Ha & Hall & Htr & Hws & Hr2).
  apply after_loop_spec in Hrun as (Ha' & evs' & Htr' & Hrs' & Hr).
  simpl in Hmd, Hw, Ht, Ha, Hall, Htr, Hr2. fold a in Ha, Hall, Hr2.
  fold needed in Hall, Hr2, Hne |- *.
  change (metadata s2 = metadata s ++ new) in Hmd.
  assert (Hmd' : metadata s' = metadata s ++ new).
  { unfold metadata in *. by rewrite Ha'. }
  assert (Hid : id (image_attachment s2) = id a) by (by rewrite Ha).
  exists k, new, (EvFetch (path_id a) :: evs ++ evs').
  split; [exact Hmd'|]. split; [exact Hlen|].
  split. { rewrite Ha'. unfold metadata at 1. by rewrite Ha'. }
  split. { eapply Forall2_impl; [exact Hall|]. intros f e He. eauto. }
  split. { rewrite Htr', Htr, <- !app_assoc. reflexivity. }
  split.
  { simpl. rewrite List.filter_app, Hrs', app_nil_r.
    destruct r2; destruct Hr2 as [Hk ->].
    - exists (length needed). by rewrite firstn_all.
    - by exists (S k). }
  assert (Hk : (k ≤ length needed)%nat).
  { destruct r2; destruct Hr2 as [Hk _]; lia. }
  destruct r as [n|e].
  - destruct Hr as [(-> & Hw0 & Hmd0 & _ & Htab & Hwr)
                   |(-> & Hcase & (row & Hrow & Htab) & Hwr)].
    + right; left.
      assert (k = 0%nat) as -> by lia.
      rewrite Hmd in Hmd0. apply app_eq_nil in Hmd0 as [Hmd0 _].
      split; [reflexivity|]. split; [reflexivity|]. split; [exact Hne|].
      split; [exact Hmd0|]. rewrite Hid, Ht in Htab. split; [exact Htab|].
      simpl. by rewrite List.filter_app, Hws, Hwr, Hid.
    + right; right.
      split; [lia|]. split; [exact Hne|].
      split.
      { destruct Hcase as [->|[[msg ->] Hnz]].
        - left. by destruct Hr2.
        - right. destruct Hr2 as [Hlt _]. split; [exact Hlt|].
          destruct Hnz as [Hnz|Hnz].
          + left. lia.
          + rewrite Hmd in Hnz. destruct k; [|by left].
            right. destruct new; [|done]. by rewrite app_nil_r in Hnz. }
      split.
      { exists row. rewrite Hid, Ht in Hrow. split; [exact Hrow|].
        rewrite Htab, Hid, Ht. by rewrite Hmd', Hmd. }
      simpl. by rewrite List.filter_app, Hws, Hwr, Hid.
  - destruct Hr as [Htab He]. split; [|exact He]. by rewrite Htab, Ht.
Qed.

(** * Main results *)

(** C8.  When the missing-format resolver returns no format,
    [ensure_thumbnails] returns 0 at once: the state it leaves is the state
    it found, trace included, so the original was not fetched, nothing was
    resized or uploaded, and no row was saved. *)
Theorem nothing_needed_no_io env s :
  missing_thumbnails env (image_attachment s) = [] →
  ensure_thumbnails env s = (Normal 0, s).
Proof. apply ensure_thumbnails_early. Qed.

(** C1.  A [pyvips.Error] at the first needed format (so that nothing has
    been written in this run) of an attachment whose [thumbnail_metadata]
    was empty: the row is deleted, nothing is saved, the remaining formats
    are not attempted, and the function returns 0. *)
Theorem decode_failure_deletes_unthumbnailed
    env s f rest image_bytes s2 msg s3 :
  reaches env s [] f rest image_bytes s2 →
  resize_and_upload env image_bytes f s2 = (Raise (pyvips_Error msg), s3) →
  thumbnail_metadata (image_attachment s) = [] →
  ∃ s' evs,
    ensure_thumbnails env s = (Normal 0, s')
    ∧ table s' = delete (id (image_attachment s)) (table s)
    ∧ table s' !! id (image_attachment s) = None
    ∧ metadata s' = []
    ∧ trace s' = trace s ++ evs
    ∧ List.filter is_write evs = [EvDelete (id (image_attachment s))]
    ∧ List.filter is_resize evs = [resize_call (image_attachment s) f].
Proof.
  intros Hreach Hbody Hempty.
  pose proof (ensure_thumbnails_raised_at _ _ _ _ _ _ _ _ _ Hreach Hbody) as Hrun.
  apply reaches_spec in Hreach
    as (new & evs & Hmd2 & Hall & Hw2 & Ht2 & Ha2 & _ & Htr2 & Hws2 & Hrs2).
  apply Forall2_nil_inv_l in Hall as ->. rewrite app_nil_r in Hmd2.
  apply resize_and_upload_spec in Hbody
    as (Ht3 & Ha3 & (evs3 & Htr3 & Hrs3 & Hws3) & Hmd3 & Hw3).
  assert (Hmd : metadata s3 = []).
  { rewrite Hmd3, Hmd2. exact Hempty. }
  assert (Hid : id (image_attachment s3) = id (image_attachment s)).
  { by rewrite Ha3, Ha2. }
  unfold after_loop in Hrun. simpl in Hrun.
  unfold mbind, M_bind in Hrun. rewrite on_pyvips_Error_eq in Hrun.
  unfold metadata in Hmd. rewrite Hw3, Hw2, Hmd in Hrun. simpl in Hrun.
  unfold mret, M_ret in Hrun.
  eexists. exists (EvFetch (path_id (image_attachment s))
                   :: evs ++ evs3
                   ++ [EvLog (LogException (pyvips_Error msg));
                       EvDelete (id (image_attachment s))]).
  split; [exact Hrun|]. simpl. rewrite Hid, Ht3, Ht2.
  split; [reflexivity|]. split; [apply lookup_delete_eq|].
  split; [exact Hmd|].
  split. { rewrite Htr3, Htr2, <- !app_assoc. reflexivity. }
  rewrite !List.filter_app, Hws2, Hws3, Hrs2, Hrs3. simpl.
  rewrite Ha2. split; reflexivity.
Qed.

(** C2.  A [pyvips.Error] at the format [f], after the formats [done] have
    been written, for an attachment that had an entry before the run or
    has gained one in it: the row stays, the formats after [f] are not
    attempted, the metadata is what it was followed by exactly the entries
    of [done] (so unchanged when [done] is empty), that metadata is saved
    to the row, and the function returns the number of formats in
    [done]. *)
Theorem decode_failure_keeps_partial_results
    env s done f rest image_bytes s2 msg s3 row :
  reaches env s done f rest image_bytes s2 →
  resize_and_upload env image_bytes f s2 = (Raise (pyvips_Error msg), s3) →
  thumbnail_metadata (image_attachment s) ≠ [] ∨ done ≠ [] →
  table s !! id (image_attachment s) = Some row →
  ∃ s' new evs,
    ensure_thumbnails env s = (Normal (Z.of_nat (length done)), s')
    ∧ Forall2 (λ f e, derivative env (image_attachment s) image_bytes f = Some e)
        done new
    ∧ metadata s' = metadata s ++ new
    ∧ (done = [] → metadata s' = metadata s)
    ∧ table s'
      = <[id (image_attachment s)
          := set_thumbnail_metadata (metadata s ++ new) row]> (table s)
    ∧ trace s' = trace s ++ evs
    ∧ List.filter is_write evs
      = [EvSave (id (image_attachment s)) ["thumbnail_metadata"]]
    ∧ List.filter is_resize evs
      = map (resize_call (image_attachment s)) (done ++ [f]).
Proof.
  intros Hreach Hbody Hsome Hrow.
  pose proof (ensure_thumbnails_raised_at _ _ _ _ _ _ _ _ _ Hreach Hbody) as Hrun.
  apply reaches_spec in Hreach
    as (new & evs & Hmd2 & Hall & Hw2 & Ht2 & Ha2 & _ & Htr2 & Hws2 & Hrs2).
  apply resize_and_upload_spec in Hbody
    as (Ht3 & Ha3 & (evs3 & Htr3 & Hrs3 & Hws3) & Hmd3 & Hw3).
  assert (Hmd : metadata s3 = metadata s ++ new) by (by rewrite Hmd3).
  assert (Hid : id (image_attachment s3) = id (image_attachment s)).
  { by rewrite Ha3, Ha2. }
  assert (Hlen : length new = length done).
  { symmetry. eapply Forall2_length, Hall. }
  assert (Hcond : (written_images s3 =? 0)
                  && (Z.of_nat (length (metadata s3)) =? 0) = false).
  { apply andb_false_iff. unfold metadata in *.
    rewrite Hw3, Hw2, Hmd, length_app, Hlen.
    destruct Hsome as [Hpre|Hdone].
    - right. apply Z.eqb_neq. unfold metadata.
      destruct (thumbnail_metadata (image_attachment s)); [done|simpl; lia].
    - left. apply Z.eqb_neq. destruct done; [done|simpl; lia]. }
  unfold after_loop in Hrun. simpl in Hrun.
  unfold mbind, M_bind in Hrun. rewrite on_pyvips_Error_eq in Hrun.
  unfold metadata in Hcond. cbv zeta in Hrun. rewrite Hcond in Hrun.
  rewrite (save_thumbnail_metadata_found _ row) in Hrun
    by (simpl; by rewrite Hid, Ht3, Ht2).
  unfold gets in Hrun. simpl in Hrun. rewrite Hw3, Hw2 in Hrun.
  eexists. exists new.
  exists (EvFetch (path_id (image_attachment s))
          :: evs ++ evs3
          ++ [EvLog (LogException (pyvips_Error msg));
              EvSave (id (image_attachment s)) ["thumbnail_metadata"]]).
  split; [exact Hrun|]. unfold metadata in *. simpl. rewrite Hid, Ht3, Ht2.
  split; [exact Hall|].
  split; [exact Hmd|].
  split. { intros ->. apply Forall2_nil_inv_l in Hall as ->.
           by rewrite Hmd, app_nil_r. }
  split. { by rewrite Hmd. }
  split. { rewrite Htr3, Htr2, <- !app_assoc. reflexivity. }
  rewrite !List.filter_app, Hws2, Hws3, Hrs2, Hrs3. simpl.
  rewrite Ha2, map_app. split; reflexivity.
Qed.

(** C4.  At the format [f], after the formats [done], the resize and the
    encoding succeed and then either the content type of the extension is
    not found (the [assert] fails) or the upload raises.  The exception is
    not caught: it is the outcome of [ensure_thumbnails], no row of the
    table has changed, and the run has issued neither a save nor a
    delete. *)
Theorem uncaught_failures_persist_nothing
    env s done f rest image_bytes s2 resized data e :
  reaches env s done f rest image_bytes s2 →
  thumbnail_buffer env image_bytes (max_width f) (max_height f)
    (load_opts (image_attachment s) f) pyvips.DOWN = inr resized →
  write_to_buffer env resized ("." +:+ extension f +:+ "[" +:+ opts f +:+ "]")
    = inr data →
  (guess_type env ("image." +:+ extension f) = None ∧ e = AssertionError)
  ∨ (∃ ct msg,
       guess_type env ("image." +:+ extension f) = Some ct
       ∧ upload_message_attachment env
           (get_image_thumbnail_path env (image_attachment s2) f) ct data
           (storage s2) = inl msg
       ∧ e = StorageError msg) →
  ∃ s' evs,
    ensure_thumbnails env s = (Raise e, s')
    ∧ table s' = table s
    ∧ trace s' = trace s ++ evs
    ∧ List.filter is_write evs = [].
Proof.
  intros Hreach E1 E2 Hcause.
  pose proof (reaches_spec _ _ _ _ _ _ _ Hreach)
    as (new & evs & Hmd2 & Hall & Hw2 & Ht2 & Ha2 & _ & Htr2 & Hws2 & Hrs2).
  assert (E1' : thumbnail_buffer env image_bytes (max_width f) (max_height f)
                  (load_opts (image_attachment s2) f) pyvips.DOWN = inr resized).
  { by rewrite Ha2, load_opts_set_metadata. }
  assert (Hbody : ∃ s3, resize_and_upload env image_bytes f s2 = (Raise e, s3)
                        ∧ is_pyvips_Error e = false).
  { destruct Hcause as [[E3 ->]|(ct & msg & E3 & E4 & ->)].
    - destruct (resize_and_upload_no_content_type _ _ _ _ _ _ E1' E2 E3)
        as [s3 Hs3]. eauto.
    - destruct (resize_and_upload_upload_failure _ _ _ _ _ _ _ _ E1' E2 E3 E4)
        as [s3 Hs3]. eauto. }
  destruct Hbody as (s3 & Hbody & He).
  pose proof (ensure_thumbnails_raised_at _ _ _ _ _ _ _ _ _ Hreach Hbody) as Hrun.
  unfold after_loop in Hrun. rewrite He in Hrun.
  apply resize_and_upload_spec in Hbody
    as (Ht3 & _ & (evs3 & Htr3 & _ & Hws3) & _).
  exists s3, (EvFetch (path_id (image_attachment s)) :: evs ++ evs3).
  split; [exact Hrun|]. split; [by rewrite Ht3|].
  split. { rewrite Htr3, Htr2, <- !app_assoc. reflexivity. }
  simpl. by rewrite List.filter_app, Hws2, Hws3.
Qed.

(** ** Consequences of the shape of a run *)

Lemma write_events_in evs ws ev :
  List.filter is_write evs = ws → In ev evs → is_write ev = true → In ev ws.
Proof. intros <- Hin Hw. apply List.filter_In. by split. Qed.

(** What an entry records about the image it was made from. *)
Lemma derivative_inv env a image_bytes f e :
  derivative env a image_bytes f = Some e →
  ∃ resized,
    thumbnail_buffer env image_bytes (max_width f) (max_height f)
      (load_opts a f) pyvips.DOWN = inr resized
    ∧ Stored.width e = pyvips.width resized
    ∧ output_height f resized = inr (Stored.height e)
    ∧ same_format f e = true.
Proof.
  unfold derivative.
  destruct (thumbnail_buffer _ _ _ _ _ _) as [|resized]; [done|].
  destruct (write_to_buffer _ _ _) as [|data]; [done|].
  destruct (guess_type _ _) as [ct|]; [|done].
  destruct (output_height f resized) as [|h] eqn:Hh; [done|].
  intros [= <-]. exists resized. simpl.
  split; [reflexivity|]. split; [reflexivity|]. split; [exact Hh|].
  unfold same_format. simpl.
  rewrite String.eqb_refl, !Z.eqb_refl. by destruct (animated f).
Qed.

(** The entry that a run appended in position [i] is the derivative of the
    [i]-th needed format. *)
Lemma ensure_thumbnails_entry env s r s' new i f e :
  ensure_thumbnails env s = (r, s') →
  metadata s' = metadata s ++ new →
  missing_thumbnails env (image_attachment s) !! i = Some f →
  new !! i = Some e →
  ∃ image_bytes,
    save_attachment_contents env (path_id (image_attachment s)) (storage s)
      = inr image_bytes
    ∧ derivative env (image_attachment s) image_bytes f = Some e.
Proof.
  intros Hrun Hnew Hf He.
  apply ensure_thumbnails_spec in Hrun
    as (k & new' & evs & Hmd & Hlen & _ & Hall & _).
  rewrite Hmd in Hnew. apply app_inv_head in Hnew as <-.
  assert (Hi : (i < k)%nat) by (rewrite <- Hlen; by eapply lookup_lt_Some).
  eapply (Forall2_lookup_lr _ _ _ i f e) in Hall; auto.
  by rewrite lookup_take_lt.
Qed.

(** C10.  A run that returns [n] leaves the earlier entries of
    [thumbnail_metadata] where they were and appends [n] entries after
    them: the derivatives of the first [n] needed formats, in that
    order.  (A run that deleted the row returns 0 and appends nothing, so
    the statement needs no exception for it.) *)
Theorem metadata_grows_by_returned_count env s n s' :
  ensure_thumbnails env s = (Normal n, s') →
  ∃ new,
    metadata s' = metadata s ++ new
    ∧ Z.of_nat (length new) = n
    ∧ Z.of_nat (length (metadata s'))
      = Z.of_nat (length (metadata s)) + n
    ∧ (∀ i e, metadata s !! i = Some e → metadata s' !! i = Some e)
    ∧ Forall2 (λ f e, ∃ image_bytes,
          save_attachment_contents env (path_id (image_attachment s))
            (storage s) = inr image_bytes
          ∧ derivative env (image_attachment s) image_bytes f = Some e)
        (take (length new) (missing_thumbnails env (image_attachment s))) new.
Proof.
  intros Hrun.
  apply ensure_thumbnails_spec in Hrun
    as (k & new & evs & Hmd & Hlen & _ & Hall & _ & _ & Hr).
  cbv zeta in *.
  assert (Hn : Z.of_nat (length new) = n).
  { destruct Hr as [(-> & Hneeded & ->)|[(-> & -> & _)|(-> & _)]].
    - rewrite <- (app_nil_r (metadata s)) in Hmd at 1.
      apply app_inv_head in Hmd as <-. reflexivity.
    - by rewrite Hlen.
    - by rewrite Hlen. }
  exists new. split; [exact Hmd|]. split; [exact Hn|].
  split. { rewrite Hmd, length_app. lia. }
  split. { intros i e Hi. rewrite Hmd. by apply lookup_app_l_Some. }
  by rewrite Hlen.
Qed.

(** C9.  A run that returns and after which the row is still in the table
    (it has not been deleted).  When a format was needed the run has
    persisted [thumbnail_metadata]: the row is the one that was there
    before with its [thumbnail_metadata] replaced by the instance's list,
    the old entries followed by those the run appended, and the one write
    of the run is the save of that one field.  When no format was needed
    the row, like everything else, is as it was.  Either way every other
    column, and every other row, is as it was, even where the instance
    differs from the row; every save the run issued names exactly the
    field [thumbnail_metadata]; the value returned is the number of
    entries the run appended. *)
Theorem save_touches_only_thumbnail_metadata env s n s' row' :
  ensure_thumbnails env s = (Normal n, s') →
  table s' !! id (image_attachment s) = Some row' →
  ∃ row new,
    table s !! id (image_attachment s) = Some row
    ∧ metadata s' = metadata s ++ new
    ∧ n = Z.of_nat (length new)
    ∧ (missing_thumbnails env (image_attachment s) ≠ [] →
       row' = set_thumbnail_metadata (metadata s ++ new) row
       ∧ thumbnail_metadata row' = metadata s ++ new
       ∧ table s'
         = <[id (image_attachment s)
             := set_thumbnail_metadata (metadata s ++ new) row]> (table s)
       ∧ ∀ evs, trace s' = trace s ++ evs →
           List.filter is_write evs
           = [EvSave (id (image_attachment s)) ["thumbnail_metadata"]])
    ∧ (missing_thumbnails env (image_attachment s) = [] →
       row' = row ∧ s' = s)
    ∧ id row' = id row
    ∧ path_id row' = path_id row
    ∧ original_width_px row' = original_width_px row
    ∧ original_height_px row' = original_height_px row
    ∧ frames row' = frames row
    ∧ (∀ pk, pk ≠ id (image_attachment s) → table s' !! pk = table s !! pk)
    ∧ (∀ evs pk update_fields,
         trace s' = trace s ++ evs → In (EvSave pk update_fields) evs →
         pk = id (image_attachment s) ∧ update_fields = ["thumbnail_metadata"])
    ∧ n = Z.of_nat (length (metadata s')) - Z.of_nat (length (metadata s)).
Proof.
  intros Hrun Hrow'.
  apply ensure_thumbnails_spec in Hrun
    as (k & new & evs & Hmd & Hlen & _ & _ & Htr & _ & Hr).
  cbv zeta in *.
  assert (Hcount : length (metadata s') = (length (metadata s) + k)%nat).
  { by rewrite Hmd, length_app, Hlen. }
  destruct Hr as [(-> & Hneeded & ->)
                 |[(-> & -> & _ & _ & Htab & _)
                  |(-> & Hne & _ & (row & Hrow & Htab) & Hwr)]].
  - exists row', []. split; [exact Hrow'|].
    split; [by rewrite app_nil_r|]. split; [reflexivity|].
    split; [by intros Hne|]. split; [by intros _|].
    repeat (split; [reflexivity|]).
    split.
    { intros evs' pk fs Hevs.
      rewrite <- (app_nil_r (trace s)) in Hevs at 1.
      apply app_inv_head in Hevs as <-. intros []. }
    lia.
  - rewrite Htab, lookup_delete_eq in Hrow'. discriminate.
  - rewrite Htab, lookup_insert_eq in Hrow'. injection Hrow' as <-.
    exists row, new. split; [exact Hrow|]. split; [exact Hmd|].
    split; [by rewrite Hlen|].
    split.
    { intros _. rewrite <- Hmd. split; [reflexivity|].
      split; [reflexivity|]. split; [exact Htab|].
      intros evs' Hevs. rewrite Htr in Hevs.
      by apply app_inv_head in Hevs as <-. }
    split; [by intros Hnone|].
    repeat (split; [reflexivity|]).
    split. { intros pk Hpk. by rewrite Htab, lookup_insert_ne. }
    split.
    { intros evs' pk fs Hevs Hin. rewrite Htr in Hevs.
      apply app_inv_head in Hevs as <-.
      eapply write_events_in in Hin; [|exact Hwr|reflexivity].
      destruct Hin as [[= <- <-]|[]]. by split. }
    lia.
Qed.

(** C6.  The [i]-th call to [thumbnail_buffer] in a run is made for the
    [i]-th needed format, with that format's box and [Size.DOWN], and with
    an option string fixed by the attachment's frame count and the
    format's animated flag: none when [frames <= 1]; "n=-1" (every frame)
    when [frames > 1] and the format is animated; "n=1" (the first frame)
    when [frames > 1] and it is not. *)
Theorem frame_load_mode env s r s' evs i w h option_string size :
  ensure_thumbnails env s = (r, s') →
  trace s' = trace s ++ evs →
  List.filter is_resize evs !! i = Some (EvResize w h option_string size) →
  ∃ f,
    missing_thumbnails env (image_attachment s) !! i = Some f
    ∧ w = max_width f ∧ h = max_height f ∧ size = pyvips.DOWN
    ∧ (frames (image_attachment s) ≤ 1 → option_string = "")
    ∧ (1 < frames (image_attachment s) → animated f = true →
       option_string = "n=-1")
    ∧ (1 < frames (image_attachment s) → animated f = false →
       option_string = "n=1").
Proof.
  intros Hrun Hevs Hcall.
  apply ensure_thumbnails_spec in Hrun
    as (k & new & evs' & _ & _ & _ & _ & Htr & (j & Hrs) & _).
  cbv zeta in *.
  rewrite Htr in Hevs. apply app_inv_head in Hevs as <-.
  rewrite Hrs in Hcall.
  apply list_lookup_fmap_Some in Hcall as (f & Hcall & Hf).
  apply lookup_take_Some in Hf as [Hf _].
  injection Hcall as -> -> -> ->.
  exists f. split; [exact Hf|]. repeat (split; [reflexivity|]).
  unfold load_opts.
  destruct (Z.ltb_spec 1 (frames (image_attachment s)));
    repeat split; intros; try lia; destruct (animated f); congruence.
Qed.

(** C7, amended.  The entry a run appended for a needed format records the
    width of the resized image; as its height it records the image's
    "page-height" field (the height of one frame, not that of the stacked
    canvas) when the format is animated, and the image's height when it is
    not. *)
Theorem recorded_width_and_height env s r s' new i f e :
  ensure_thumbnails env s = (r, s') →
  metadata s' = metadata s ++ new →
  missing_thumbnails env (image_attachment s) !! i = Some f →
  new !! i = Some e →
  ∃ image_bytes resized,
    save_attachment_contents env (path_id (image_attachment s)) (storage s)
      = inr image_bytes
    ∧ thumbnail_buffer env image_bytes (max_width f) (max_height f)
        (load_opts (image_attachment s) f) pyvips.DOWN = inr resized
    ∧ Stored.width e = pyvips.width resized
    ∧ (animated f = true →
       pyvips.get resized "page-height" = inr (Stored.height e))
    ∧ (animated f = false → Stored.height e = pyvips.height resized).
Proof.
  intros Hrun Hnew Hf He.
  destruct (ensure_thumbnails_entry _ _ _ _ _ _ _ _ Hrun Hnew Hf He)
    as (image_bytes & Hbytes & Hd).
  apply derivative_inv in Hd as (resized & Hresized & Hw & Hh & _).
  exists image_bytes, resized.
  split; [exact Hbytes|]. split; [exact Hresized|]. split; [exact Hw|].
  unfold output_height in Hh.
  split; intros Hanim; rewrite Hanim in Hh; [exact Hh|congruence].
Qed.

(** ** The resolver *)

Lemma filter_none {A} (p : A → bool) (l : list A) :
  (∀ x, In x l → p x = false) → List.filter p l = [].
Proof.
  induction l as [|x l IH]; intros Hp; [reflexivity|]. simpl.
  rewrite (Hp x) by (by left). apply IH. intros y Hy. apply Hp. by right.
Qed.

Lemma missing_metadata catalogue a b :
  thumbnail_metadata a = thumbnail_metadata b →
  missing catalogue a = missing catalogue b.
Proof. unfold missing. by intros ->. Qed.

(** Once every missing format has an entry, nothing is missing. *)
Lemma missing_after_all_written catalogue a b new :
  Forall2 (λ f e, same_format f e = true) (missing catalogue a) new →
  thumbnail_metadata b = thumbnail_metadata a ++ new →
  missing catalogue b = [].
Proof.
  intros Hall Hb. unfold missing at 1. rewrite Hb.
  apply filter_none. intros f Hf. rewrite existsb_app.
  destruct (existsb (same_format f) (thumbnail_metadata a)) eqn:Hseen;
    [reflexivity|].
  assert (Hneeded : In f (missing catalogue a)).
  { apply List.filter_In. split; [exact Hf|]. by rewrite Hseen. }
  apply list_elem_of_In, list_elem_of_lookup in Hneeded as [i Hi].
  destruct (Forall2_lookup_l _ _ _ _ _ Hall Hi) as (e & He & Hsame).
  assert (Hnew : existsb (same_format f) new = true).
  { apply existsb_exists. exists e. split; [|exact Hsame].
    apply list_elem_of_In, list_elem_of_lookup. eauto. }
  by rewrite Hnew.
Qed.

(** C3.  With the resolver of the specification, let a first run write
    every format that was missing (it returns their number).  Then the
    resolver finds nothing missing in the metadata the run leaves, and a
    second call on an attachment carrying that metadata returns 0, leaving
    its state as it found it. *)
Theorem second_run_writes_nothing env catalogue s n s' :
  (∀ a, missing_thumbnails env a = missing catalogue a) →
  ensure_thumbnails env s = (Normal n, s') →
  n = Z.of_nat (length (missing_thumbnails env (image_attachment s))) →
  missing_thumbnails env (image_attachment s') = []
  ∧ ∀ t,
      thumbnail_metadata (image_attachment t)
        = thumbnail_metadata (image_attachment s') →
      ensure_thumbnails env t = (Normal 0, t).
Proof.
  intros Hresolver Hrun Hn.
  assert (Hnone : missing_thumbnails env (image_attachment s') = []).
  { apply ensure_thumbnails_spec in Hrun
      as (k & new & evs & Hmd & Hlen & _ & Hall & _ & _ & Hr).
    cbv zeta in *.
    destruct Hr as [(_ & Hneeded & ->)
                   |[(-> & _ & Hne & _)|(-> & _ & _)]].
    - exact Hneeded.
    - destruct (missing_thumbnails env (image_attachment s)); [done|].
      simpl in Hn. lia.
    - apply Nat2Z.inj in Hn. rewrite Hn, firstn_all, Hresolver in Hall.
      rewrite Hresolver.
      eapply missing_after_all_written; [|exact Hmd].
      eapply Forall2_impl; [exact Hall|].
      intros f e (image_bytes & _ & Hd).
      by apply derivative_inv in Hd as (_ & _ & _ & _ & Hsame). }
  split; [exact Hnone|].
  intros t Ht. apply ensure_thumbnails_early.
  rewrite Hresolver in Hnone |- *.
  by rewrite (missing_metadata _ _ _ Ht).
Qed.

(** ** The resize *)

Lemma scaled_unit x : 0 < x → vips_model.scaled x (1, 1) = x.
Proof.
  intros Hx. unfold vips_model.scaled.
  replace ((2 * x * 1 + 1) / (2 * 1)) with x; [lia|].
  apply (Z.div_unique _ _ _ 1); lia.
Qed.

Lemma scaled_same x n : 0 < x → 0 < n → vips_model.scaled x (n, n) = x.
Proof.
  intros Hx Hn. unfold vips_model.scaled.
  replace ((2 * x * n + n) / (2 * n)) with x; [lia|].
  apply (Z.div_unique _ _ _ n); lia.
Qed.

(** An image that fits the box keeps its size under [Size.DOWN]. *)
Lemma thumbnail_size_down_fits im w h :
  vips_model.well_formed im →
  pyvips.width im ≤ w → vips_model.page_height im ≤ h →
  vips_model.thumbnail_size im w h pyvips.DOWN
  = (pyvips.width im, vips_model.page_height im).
Proof.
  intros (Hw & Hp & _ & _) Hfw Hfh.
  unfold vips_model.thumbnail_size, vips_model.shrink, vips_model.clamp.
  destruct (Z.leb_spec (vips_model.page_height im * w) (pyvips.width im * h)).
  - destruct (Z.ltb_spec (pyvips.width im) w).
    + by rewrite !scaled_unit.
    + assert (pyvips.width im = w) as <- by lia. by rewrite !scaled_same.
  - destruct (Z.ltb_spec (vips_model.page_height im) h).
    + by rewrite !scaled_unit.
    + assert (vips_model.page_height im = h) as <- by lia.
      by rewrite !scaled_same.
Qed.

Lemma thumbnail_image_down_fits im w h :
  vips_model.well_formed im →
  pyvips.width im ≤ w → vips_model.page_height im ≤ h →
  vips_model.thumbnail_image im w h pyvips.DOWN = im.
Proof.
  intros Hwf Hfw Hfh. unfold vips_model.thumbnail_image.
  rewrite thumbnail_size_down_fits by assumption.
  destruct Hwf as (_ & Hp & _ & q & Hq).
  assert (Hheight : vips_model.page_height im
                    * (pyvips.height im / vips_model.page_height im)
                    = pyvips.height im).
  { rewrite Hq, Z.div_mul by lia. lia. }
  rewrite Hheight. unfold vips_model.page_height.
  destruct im as [wd ht flds]; simpl.
  destruct (flds !! "page-height") as [ph|] eqn:Hph; [|reflexivity].
  by rewrite insert_id.
Qed.

Lemma scaled_le x num den b :
  0 < num → 1 ≤ b → x * den ≤ b * num → vips_model.scaled x (num, den) ≤ b.
Proof.
  intros Hnum Hb Hle. unfold vips_model.scaled.
  apply Z.max_lub; [exact Hb|].
  apply Z.lt_succ_r, Z.div_lt_upper_bound; nia.
Qed.

Lemma scaled_pos x factor : 1 ≤ vips_model.scaled x factor.
Proof. destruct factor. unfold vips_model.scaled. lia. Qed.

(** Under [Size.DOWN] the thumbnail fits the box and is no larger than the
    image it was made from. *)
Lemma thumbnail_size_down_bounds im w h :
  vips_model.well_formed im → 0 < w → 0 < h →
  1 ≤ (vips_model.thumbnail_size im w h pyvips.DOWN).1
      ≤ Z.min (pyvips.width im) w
  ∧ 1 ≤ (vips_model.thumbnail_size im w h pyvips.DOWN).2
        ≤ Z.min (vips_model.page_height im) h.
Proof.
  intros (HW & HP & _ & _) Hw Hh.
  unfold vips_model.thumbnail_size, vips_model.shrink, vips_model.clamp.
  destruct (Z.leb_spec (vips_model.page_height im * w) (pyvips.width im * h)).
  - destruct (Z.ltb_spec (pyvips.width im) w); cbn [fst snd].
    + rewrite !scaled_unit by assumption. nia.
    + split; (split; [apply scaled_pos|]); apply Z.min_glb;
        apply scaled_le; nia.
  - destruct (Z.ltb_spec (vips_model.page_height im) h); cbn [fst snd].
    + rewrite !scaled_unit by assumption. nia.
    + split; (split; [apply scaled_pos|]); apply Z.min_glb;
        apply scaled_le; nia.
Qed.

(** One page is never taller than the canvas. *)
Lemma page_height_le_height im :
  vips_model.well_formed im → vips_model.page_height im ≤ pyvips.height im.
Proof. intros (_ & Hp & Hh & Hdiv). by apply Z.divide_pos_le. Qed.

(** The factor chosen under [Size.DOWN] reduces or keeps: [den <= num]. *)
Lemma clamp_down_shrink_factor im w h :
  vips_model.well_formed im → 0 < w → 0 < h →
  ∃ num den,
    vips_model.clamp pyvips.DOWN (vips_model.shrink im w h) = (num, den)
    ∧ 0 < den ≤ num.
Proof.
  intros (HW & HP & _ & _) Hw Hh.
  unfold vips_model.shrink, vips_model.clamp.
  destruct (Z.leb_spec (vips_model.page_height im * w) (pyvips.width im * h)).
  - destruct (Z.ltb_spec (pyvips.width im) w).
    + exists 1, 1. split; [reflexivity|lia].
    + eexists _, _. split; [reflexivity|lia].
  - destruct (Z.ltb_spec (vips_model.page_height im) h).
    + exists 1, 1. split; [reflexivity|lia].
    + eexists _, _. split; [reflexivity|lia].
Qed.

(** Rounding moves a side by less than one pixel of the thumbnail. *)
Lemma scaled_error x num den :
  0 < x → 0 < den ≤ num →
  - num ≤ vips_model.scaled x (num, den) * num - x * den ≤ num.
Proof.
  intros Hx Hf. unfold vips_model.scaled.
  pose proof (Z.div_mod (2 * x * den + num) (2 * num) ltac:(lia)) as Hdm.
  pose proof (Z.mod_pos_bound (2 * x * den + num) (2 * num) ltac:(lia)) as Hm.
  set (q := (2 * x * den + num) / (2 * num)) in *.
  assert (0 ≤ q) by (apply Z.div_pos; nia).
  destruct (Z.max_spec 1 q) as [[Hlt ->]|[Hge ->]]; nia.
Qed.

(** Both sides scaled by one factor: the aspect ratio is kept up to the
    rounding of each side to a whole pixel. *)
Lemma scaled_cross W H num den :
  0 < W → 0 < H → 0 < den ≤ num →
  Z.abs (vips_model.scaled W (num, den) * H - vips_model.scaled H (num, den) * W)
  ≤ W + H.
Proof.
  intros HW HH Hf.
  pose proof (scaled_error W num den HW Hf) as EW.
  pose proof (scaled_error H num den HH Hf) as EH.
  set (a := vips_model.scaled W (num, den)) in *.
  set (b := vips_model.scaled H (num, den)) in *.
  apply Z.abs_le. split.
  - apply (Z.mul_le_mono_pos_l _ _ num); [lia|]. nia.
  - apply (Z.mul_le_mono_pos_l _ _ num); [lia|]. nia.
Qed.

(** An image larger than the box is reduced until one side meets it. *)
Lemma thumbnail_size_down_touches im w h :
  vips_model.well_formed im → 0 < w → 0 < h →
  w < pyvips.width im ∨ h < vips_model.page_height im →
  (vips_model.thumbnail_size im w h pyvips.DOWN).1 = w
  ∨ (vips_model.thumbnail_size im w h pyvips.DOWN).2 = h.
Proof.
  intros (HW & HP & _ & _) Hw Hh Hbig.
  unfold vips_model.thumbnail_size, vips_model.shrink, vips_model.clamp.
  destruct (Z.leb_spec (vips_model.page_height im * w) (pyvips.width im * h)).
  - destruct (Z.ltb_spec (pyvips.width im) w); [nia|].
    left. cbn [fst]. unfold vips_model.scaled.
    replace ((2 * pyvips.width im * w + pyvips.width im) / (2 * pyvips.width im))
      with w; [lia|].
    apply (Z.div_unique _ _ _ (pyvips.width im)); lia.
  - destruct (Z.ltb_spec (vips_model.page_height im) h); [nia|].
    right. cbn [snd]. unfold vips_model.scaled.
    replace ((2 * vips_model.page_height im * h + vips_model.page_height im)
             / (2 * vips_model.page_height im))
      with h; [lia|].
    apply (Z.div_unique _ _ _ (vips_model.page_height im)); lia.
Qed.

(** The height line 94 reads off the thumbnail is the scaled height of one
    page, when the height it would read off the loaded image is that of
    one page. *)
Lemma output_height_thumbnail_image f im w h size H :
  vips_model.well_formed im →
  (animated f = false → vips_model.page_height im = pyvips.height im) →
  output_height f im = inr H →
  H = vips_model.page_height im
  ∧ output_height f (vips_model.thumbnail_image im w h size)
    = inr (vips_model.thumbnail_size im w h size).2.
Proof.
  intros (_ & HP & _ & _) Hone HH.
  unfold output_height, vips_model.thumbnail_image in *.
  destruct (vips_model.thumbnail_size im w h size) as [w' ph'].
  destruct (animated f).
  - unfold pyvips.get, vips_model.page_height in *. simpl.
    destruct (pyvips.fields im !! "page-height") as [ph|]; [|done].
    injection HH as ->. split; [reflexivity|].
    by rewrite lookup_insert_eq.
  - injection HH as <-. specialize (Hone eq_refl). rewrite Hone in *.
    split; [reflexivity|]. simpl.
    rewrite Z.div_same by lia. f_equal. lia.
Qed.

(** C5.  Let the resize be the library's fit-within resize, and let the
    source as loaded for a format with a positive box be [W] wide and [H]
    high (its height being read the way line 94 reads the thumbnail's: one
    page of an animation, the whole image of a still).  The call made for
    the format passes that format's box and [Size.DOWN], so the entry
    appended for it records a width and a height that fit the box, that
    are not larger than [W] and [H], and that are [W] and [H] divided by
    one factor and rounded to whole pixels, which keeps the aspect ratio
    up to that rounding.  A source larger than the box is reduced until
    one side meets the box; a source with [W <= max_width] and
    [H <= max_height] is recorded with exactly [W] and [H]. *)
Theorem resize_fits_box_without_upscaling
    env load s r s' new i f e image_bytes src W H :
  (∀ buf w h option_string size,
     thumbnail_buffer env buf w h option_string size
     = vips_model.thumbnail_buffer load buf w h option_string size) →
  ensure_thumbnails env s = (r, s') →
  metadata s' = metadata s ++ new →
  missing_thumbnails env (image_attachment s) !! i = Some f →
  new !! i = Some e →
  save_attachment_contents env (path_id (image_attachment s)) (storage s)
    = inr image_bytes →
  load image_bytes (load_opts (image_attachment s) f) = inr src →
  vips_model.well_formed src →
  (animated f = false → vips_model.page_height src = pyvips.height src) →
  0 < max_width f →
  0 < max_height f →
  pyvips.width src = W →
  output_height f src = inr H →
  (1 ≤ Stored.width e ≤ max_width f ∧ 1 ≤ Stored.height e ≤ max_height f)
  ∧ (Stored.width e ≤ W ∧ Stored.height e ≤ H)
  ∧ (∃ num den,
       0 < den ≤ num
       ∧ Stored.width e = vips_model.scaled W (num, den)
       ∧ Stored.height e = vips_model.scaled H (num, den))
  ∧ Z.abs (Stored.width e * H - Stored.height e * W) ≤ W + H
  ∧ (max_width f < W ∨ max_height f < H →
     Stored.width e = max_width f ∨ Stored.height e = max_height f)
  ∧ (W ≤ max_width f → H ≤ max_height f →
     Stored.width e = W ∧ Stored.height e = H).
Proof.
  intros Hlib Hrun Hnew Hf He Hbytes Hload Hwf Hone Hbw Hbh HW HH.
  destruct (ensure_thumbnails_entry _ _ _ _ _ _ _ _ Hrun Hnew Hf He)
    as (image_bytes' & Hbytes' & Hd).
  rewrite Hbytes in Hbytes'. injection Hbytes' as <-.
  apply derivative_inv in Hd as (resized & Hresized & Hw & Hh & _).
  rewrite Hlib in Hresized. unfold vips_model.thumbnail_buffer in Hresized.
  rewrite Hload in Hresized. injection Hresized as <-.
  destruct (output_height_thumbnail_image f src (max_width f) (max_height f)
              pyvips.DOWN H Hwf Hone HH) as [HP Hh'].
  assert (Hh2 : Stored.height e
                = (vips_model.thumbnail_size src (max_width f) (max_height f)
                     pyvips.DOWN).2) by congruence.
  assert (Hw' : Stored.width e
                = (vips_model.thumbnail_size src (max_width f) (max_height f)
                     pyvips.DOWN).1).
  { rewrite Hw. unfold vips_model.thumbnail_image.
    by destruct (vips_model.thumbnail_size _ _ _ _). }
  clear Hw Hh Hh'.
  destruct (clamp_down_shrink_factor src _ _ Hwf Hbw Hbh)
    as (num & den & Hfac & Hnd).
  assert (Hsize : vips_model.thumbnail_size src (max_width f) (max_height f)
                    pyvips.DOWN
                  = (vips_model.scaled W (num, den),
                     vips_model.scaled H (num, den))).
  { unfold vips_model.thumbnail_size. by rewrite Hfac, HW, HP. }
  pose proof (thumbnail_size_down_bounds src _ _ Hwf Hbw Hbh) as [Bw Bh].
  pose proof (thumbnail_size_down_touches src _ _ Hwf Hbw Hbh) as Htouch.
  pose proof (thumbnail_size_down_fits src (max_width f) (max_height f) Hwf)
    as Hfit.
  rewrite <- Hw' in Bw, Htouch. rewrite <- Hh2 in Bh, Htouch.
  rewrite Hsize in Hw', Hh2, Hfit. cbn [fst snd] in Hw', Hh2.
  destruct Hwf as (HWpos & HPpos & _ & _).
  rewrite HW in Bw, Htouch, Hfit, HWpos.
  rewrite <- HP in Bh, Htouch, Hfit, HPpos.
  split; [lia|]. split; [lia|].
  split. { exists num, den. split; [exact Hnd|]. by split. }
  split. { rewrite Hw', Hh2. by apply scaled_cross. }
  split; [exact Htouch|].
  intros HfW HfH. specialize (Hfit HfW HfH).
  apply pair_equal_spec in Hfit as [Hfw Hfh].
  split; congruence.
Qed.

(** * Concrete runs *)

(** A 50 x 200 still against the catalogue: both formats are written, each
    25 x 100, and the row holds both entries. *)
Example still_run :
  (ensure_thumbnails Sample.world Sample.still).1 = Normal 2
  ∧ metadata (ensure_thumbnails Sample.world Sample.still).2
    = [Sample.stored_jpg_100; Sample.stored_webp_100_anim]
  ∧ table (ensure_thumbnails Sample.world Sample.still).2 !! 7
    = Some (Sample.attachment 1
              [Sample.stored_jpg_100; Sample.stored_webp_100_anim]).
Proof. vm_compute. repeat split. Qed.

(** Six frames: the static format loads one frame, the animated one all
    of them. *)
Example animation_run :
  List.filter is_resize
    (trace (ensure_thumbnails Sample.world Sample.animation).2)
  = [EvResize 100 100 "n=1" pyvips.DOWN; EvResize 100 100 "n=-1" pyvips.DOWN].
Proof. vm_compute. reflexivity. Qed.

(** What [Size.DOWN] is there for: the same 50 x 20 image in the same box
    is enlarged under [Size.BOTH]. *)
Example size_both_enlarges :
  let im := {| pyvips.width := 50; pyvips.height := 20; pyvips.fields := ∅ |} in
  vips_model.thumbnail_size im 100 100 pyvips.DOWN = (50, 20)
  ∧ vips_model.thumbnail_size im 100 100 pyvips.BOTH = (100, 40).
Proof. vm_compute. split; reflexivity. Qed.

(** ** The main results on concrete runs *)

Lemma nothing_needed_no_io_witness :
  ensure_thumbnails (Sample.env Sample.catalogue [])
    (Sample.state
       (Sample.attachment 1
          [Sample.stored_jpg_100; Sample.stored_webp_100_anim])
       Sample.tall)
  = (Normal 0,
     Sample.state
       (Sample.attachment 1
          [Sample.stored_jpg_100; Sample.stored_webp_100_anim])
       Sample.tall).
Proof. apply nothing_needed_no_io. reflexivity. Defined.

Lemma decode_failure_deletes_unthumbnailed_witness :
  ∃ s' evs,
    ensure_thumbnails (Sample.env Sample.catalogue [])
      (Sample.state (Sample.attachment 1 []) Sample.corrupt)
    = (Normal 0, s')
    ∧ table s' = delete 7 {[ 7 := Sample.attachment 1 [] ]}
    ∧ table s' !! 7 = None
    ∧ metadata s' = []
    ∧ trace s' = [] ++ evs
    ∧ List.filter is_write evs = [EvDelete 7]
    ∧ List.filter is_resize evs = [EvResize 100 100 "" pyvips.DOWN].
Proof.
  eapply (decode_failure_deletes_unthumbnailed
            (Sample.env Sample.catalogue [])
            (Sample.state (Sample.attachment 1 []) Sample.corrupt)
            Sample.jpg_100 [Sample.webp_100_anim] Sample.corrupt).
  - split; [reflexivity|]. eexists. split; reflexivity.
  - reflexivity.
  - reflexivity.
Defined.

(** An attachment with an older entry whose source no longer decodes, and
    a still whose second format cannot be encoded. *)
Lemma decode_failure_keeps_partial_results_witness :
  (∃ s' new evs,
     ensure_thumbnails (Sample.env Sample.catalogue [])
       (Sample.state (Sample.attachment 1 [Sample.old_jpg_300])
          Sample.corrupt)
     = (Normal 0, s')
     ∧ Forall2 (λ f e,
           derivative (Sample.env Sample.catalogue [])
             (Sample.attachment 1 [Sample.old_jpg_300]) Sample.corrupt f
           = Some e) [] new
     ∧ metadata s' = [Sample.old_jpg_300] ++ new
     ∧ (@nil ThumbnailFormat = [] → metadata s' = [Sample.old_jpg_300])
     ∧ table s'
       = <[7 := set_thumbnail_metadata ([Sample.old_jpg_300] ++ new)
                  (Sample.attachment 1 [Sample.old_jpg_300])]>
           {[ 7 := Sample.attachment 1 [Sample.old_jpg_300] ]}
     ∧ trace s' = [] ++ evs
     ∧ List.filter is_write evs = [EvSave 7 ["thumbnail_metadata"]]
     ∧ List.filter is_resize evs = [EvResize 100 100 "" pyvips.DOWN])
  ∧ (∃ s' new evs,
       ensure_thumbnails
         (Sample.env
            [Sample.jpg_100; Sample.gif_100; Sample.webp_100_anim] [])
         (Sample.state (Sample.attachment 1 []) Sample.tall)
       = (Normal 1, s')
       ∧ Forall2 (λ f e,
             derivative
               (Sample.env
                  [Sample.jpg_100; Sample.gif_100; Sample.webp_100_anim] [])
               (Sample.attachment 1 []) Sample.tall f
             = Some e) [Sample.jpg_100] new
       ∧ metadata s' = [] ++ new
       ∧ ([Sample.jpg_100] = [] → metadata s' = [])
       ∧ table s'
         = <[7 := set_thumbnail_metadata ([] ++ new) (Sample.attachment 1 [])]>
             {[ 7 := Sample.attachment 1 [] ]}
       ∧ trace s' = [] ++ evs
       ∧ List.filter is_write evs = [EvSave 7 ["thumbnail_metadata"]]
       ∧ List.filter is_resize evs
         = [EvResize 100 100 "" pyvips.DOWN; EvResize 100 100 "" pyvips.DOWN]).
Proof.
  split.
  - eapply (decode_failure_keeps_partial_results
              (Sample.env Sample.catalogue [])
              (Sample.state (Sample.attachment 1 [Sample.old_jpg_300])
                 Sample.corrupt)
              [] Sample.jpg_100 [Sample.webp_100_anim] Sample.corrupt).
    + split; [reflexivity|]. eexists. split; reflexivity.
    + reflexivity.
    + left. discriminate.
    + reflexivity.
  - eapply (decode_failure_keeps_partial_results
              (Sample.env
                 [Sample.jpg_100; Sample.gif_100; Sample.webp_100_anim] [])
              (Sample.state (Sample.attachment 1 []) Sample.tall)
              [Sample.jpg_100] Sample.gif_100 [Sample.webp_100_anim]
              Sample.tall).
    + split; [reflexivity|]. eexists. split; reflexivity.
    + reflexivity.
    + right. discriminate.
    + reflexivity.
Defined.

(** A catalogue extension without a content type, and a backend that
    refuses the second upload. *)
Lemma uncaught_failures_persist_nothing_witness :
  (∃ s' evs,
     ensure_thumbnails
       (Sample.env [Sample.jpg_100; Sample.xyz_100] [])
       (Sample.state (Sample.attachment 1 []) Sample.tall)
     = (Raise AssertionError, s')
     ∧ table s' = {[ 7 := Sample.attachment 1 [] ]}
     ∧ trace s' = [] ++ evs
     ∧ List.filter is_write evs = [])
  ∧ (∃ s' evs,
       ensure_thumbnails
         (Sample.env Sample.catalogue ["thumbnail/2/ab/pic/webp-anim"])
         (Sample.state (Sample.attachment 1 []) Sample.tall)
       = (Raise (StorageError "upload failed: thumbnail/2/ab/pic/webp-anim"), s')
       ∧ table s' = {[ 7 := Sample.attachment 1 [] ]}
       ∧ trace s' = [] ++ evs
       ∧ List.filter is_write evs = []).
Proof.
  split.
  - eapply (uncaught_failures_persist_nothing
              (Sample.env [Sample.jpg_100; Sample.xyz_100] [])
              (Sample.state (Sample.attachment 1 []) Sample.tall)
              [Sample.jpg_100] Sample.xyz_100 [] Sample.tall).
    + split; [reflexivity|]. eexists. split; reflexivity.
    + reflexivity.
    + reflexivity.
    + left. split; reflexivity.
  - eapply (uncaught_failures_persist_nothing
              (Sample.env Sample.catalogue ["thumbnail/2/ab/pic/webp-anim"])
              (Sample.state (Sample.attachment 1 []) Sample.tall)
              [Sample.jpg_100] Sample.webp_100_anim [] Sample.tall).
    + split; [reflexivity|]. eexists. split; reflexivity.
    + reflexivity.
    + reflexivity.
    + right. eexists _, _. split; [reflexivity|]. split; reflexivity.
Defined.

Lemma second_run_writes_nothing_witness :
  missing_thumbnails Sample.world
    (image_attachment (ensure_thumbnails Sample.world Sample.still).2) = []
  ∧ ∀ t,
      thumbnail_metadata (image_attachment t)
        = thumbnail_metadata
            (image_attachment (ensure_thumbnails Sample.world Sample.still).2) →
      ensure_thumbnails Sample.world t = (Normal 0, t).
Proof.
  apply (second_run_writes_nothing Sample.world Sample.catalogue
           Sample.still 2).
  - intros a. reflexivity.
  - vm_compute. reflexivity.
  - reflexivity.
Defined.

(** A 50 x 200 still in the 100 x 100 JPEG box is recorded as 25 x 100;
    six frames of 50 x 20 in the animated 100 x 100 WebP box keep
    50 x 20. *)
Lemma resize_fits_box_without_upscaling_witness :
  ((1 ≤ Stored.width Sample.stored_jpg_100 ≤ max_width Sample.jpg_100
    ∧ 1 ≤ Stored.height Sample.stored_jpg_100 ≤ max_height Sample.jpg_100)
   ∧ (Stored.width Sample.stored_jpg_100 ≤ 50
      ∧ Stored.height Sample.stored_jpg_100 ≤ 200)
   ∧ (∃ num den,
        0 < den ≤ num
        ∧ Stored.width Sample.stored_jpg_100 = vips_model.scaled 50 (num, den)
        ∧ Stored.height Sample.stored_jpg_100
          = vips_model.scaled 200 (num, den))
   ∧ Z.abs (Stored.width Sample.stored_jpg_100 * 200
            - Stored.height Sample.stored_jpg_100 * 50) ≤ 50 + 200
   ∧ (max_width Sample.jpg_100 < 50 ∨ max_height Sample.jpg_100 < 200 →
      Stored.width Sample.stored_jpg_100 = max_width Sample.jpg_100
      ∨ Stored.height Sample.stored_jpg_100 = max_height Sample.jpg_100)
   ∧ (50 ≤ max_width Sample.jpg_100 → 200 ≤ max_height Sample.jpg_100 →
      Stored.width Sample.stored_jpg_100 = 50
      ∧ Stored.height Sample.stored_jpg_100 = 200))
  ∧ ((1 ≤ Stored.width Sample.stored_webp_clip ≤ max_width Sample.webp_100_anim
      ∧ 1 ≤ Stored.height Sample.stored_webp_clip ≤ max_height Sample.webp_100_anim)
     ∧ (Stored.width Sample.stored_webp_clip ≤ 50
        ∧ Stored.height Sample.stored_webp_clip ≤ 20)
     ∧ (∃ num den,
          0 < den ≤ num
          ∧ Stored.width Sample.stored_webp_clip = vips_model.scaled 50 (num, den)
          ∧ Stored.height Sample.stored_webp_clip = vips_model.scaled 20 (num, den))
     ∧ Z.abs (Stored.width Sample.stored_webp_clip * 20
              - Stored.height Sample.stored_webp_clip * 50) ≤ 50 + 20
     ∧ (max_width Sample.webp_100_anim < 50
        ∨ max_height Sample.webp_100_anim < 20 →
        Stored.width Sample.stored_webp_clip = max_width Sample.webp_100_anim
        ∨ Stored.height Sample.stored_webp_clip = max_height Sample.webp_100_anim)
     ∧ (50 ≤ max_width Sample.webp_100_anim →
        20 ≤ max_height Sample.webp_100_anim →
        Stored.width Sample.stored_webp_clip = 50
        ∧ Stored.height Sample.stored_webp_clip = 20)).
Proof.
  split.
  - apply (resize_fits_box_without_upscaling Sample.world Sample.load
             Sample.still
             (ensure_thumbnails Sample.world Sample.still).1
             (ensure_thumbnails Sample.world Sample.still).2
             (metadata (ensure_thumbnails Sample.world Sample.still).2)
             0%nat Sample.jpg_100 Sample.stored_jpg_100 Sample.tall
             {| pyvips.width := 50; pyvips.height := 200;
                pyvips.fields := {["page-height" := 200]} |}).
    + intros; reflexivity.
    + apply surjective_pairing.
    + reflexivity.
    + reflexivity.
    + vm_compute; reflexivity.
    + reflexivity.
    + reflexivity.
    + repeat split; simpl; try lia. by exists 1.
    + reflexivity.
    + reflexivity.
    + reflexivity.
    + reflexivity.
    + reflexivity.
  - apply (resize_fits_box_without_upscaling Sample.world Sample.load
             Sample.animation
             (ensure_thumbnails Sample.world Sample.animation).1
             (ensure_thumbnails Sample.world Sample.animation).2
             (metadata (ensure_thumbnails Sample.world Sample.animation).2)
             1%nat Sample.webp_100_anim Sample.stored_webp_clip Sample.clip
             {| pyvips.width := 50; pyvips.height := 120;
                pyvips.fields := {["page-height" := 20]} |}).
    + intros; reflexivity.
    + apply surjective_pairing.
    + reflexivity.
    + reflexivity.
    + vm_compute; reflexivity.
    + reflexivity.
    + reflexivity.
    + repeat split; simpl; try lia. by exists 6.
    + discriminate.
    + reflexivity.
    + reflexivity.
    + reflexivity.
    + reflexivity.
Defined.

(** The second call to [thumbnail_buffer] for a six-frame source is the
    one for the animated format, and loads every frame. *)
Lemma frame_load_mode_witness :
  ∃ f,
    missing_thumbnails Sample.world (image_attachment Sample.animation) !! 1%nat
      = Some f
    ∧ 100 = max_width f ∧ 100 = max_height f ∧ pyvips.DOWN = pyvips.DOWN
    ∧ (frames (image_attachment Sample.animation) ≤ 1 → "n=-1" = "")
    ∧ (1 < frames (image_attachment Sample.animation) → animated f = true →
       "n=-1" = "n=-1")
    ∧ (1 < frames (image_attachment Sample.animation) → animated f = false →
       "n=-1" = "n=1").
Proof.
  apply (frame_load_mode Sample.world Sample.animation
           (ensure_thumbnails Sample.world Sample.animation).1
           (ensure_thumbnails Sample.world Sample.animation).2
           (trace (ensure_thumbnails Sample.world Sample.animation).2)
           1%nat 100 100 "n=-1" pyvips.DOWN).
  - apply surjective_pairing.
  - reflexivity.
  - vm_compute. reflexivity.
Defined.

(** C7 as it is stated, with the recorded height of an animated format
    being the height of the whole canvas, does not hold.  Six frames of
    50 x 20 in the animated 100 x 100 box: the image [thumbnail_buffer]
    returns is a canvas 120 high whose "page-height" is 20, and the entry
    records 20. *)
Lemma animated_height_is_not_canvas_height :
  ¬ (∀ env s r s' new i f e image_bytes resized,
       ensure_thumbnails env s = (r, s') →
       metadata s' = metadata s ++ new →
       missing_thumbnails env (image_attachment s) !! i = Some f →
       new !! i = Some e →
       save_attachment_contents env (path_id (image_attachment s)) (storage s)
         = inr image_bytes →
       thumbnail_buffer env image_bytes (max_width f) (max_height f)
         (load_opts (image_attachment s) f) pyvips.DOWN = inr resized →
       animated f = true →
       Stored.height e = pyvips.height resized).
Proof.
  intros Hclaim.
  specialize (Hclaim Sample.world Sample.animation
    (ensure_thumbnails Sample.world Sample.animation).1
    (ensure_thumbnails Sample.world Sample.animation).2
    (metadata (ensure_thumbnails Sample.world Sample.animation).2)
    1%nat Sample.webp_100_anim
    (stored_format Sample.webp_100_anim "image/webp" 50 20 [xff; xd8; xff; xd9])
    Sample.clip
    {| pyvips.width := 50; pyvips.height := 120;
       pyvips.fields := {["page-height" := 20]} |}).
  assert (Hheights : (20 : Z) = 120); [|discriminate Hheights].
  apply Hclaim.
  - apply surjective_pairing.
  - reflexivity.
  - reflexivity.
  - vm_compute. reflexivity.
  - reflexivity.
  - vm_compute. reflexivity.
  - reflexivity.
Qed.

(** Six frames of 50 x 20: the animated entry records the width and the
    "page-height" field of the image that [thumbnail_buffer] returned. *)
Lemma recorded_width_and_height_witness :
  ∃ image_bytes resized,
    save_attachment_contents Sample.world
      (path_id (image_attachment Sample.animation))
      (storage Sample.animation) = inr image_bytes
    ∧ thumbnail_buffer Sample.world image_bytes
        (max_width Sample.webp_100_anim) (max_height Sample.webp_100_anim)
        (load_opts (image_attachment Sample.animation) Sample.webp_100_anim)
        pyvips.DOWN = inr resized
    ∧ Stored.width
        (stored_format Sample.webp_100_anim "image/webp" 50 20
           [xff; xd8; xff; xd9])
      = pyvips.width resized
    ∧ (animated Sample.webp_100_anim = true →
       pyvips.get resized "page-height"
       = inr (Stored.height
                (stored_format Sample.webp_100_anim "image/webp" 50 20
                   [xff; xd8; xff; xd9])))
    ∧ (animated Sample.webp_100_anim = false →
       Stored.height
         (stored_format Sample.webp_100_anim "image/webp" 50 20
            [xff; xd8; xff; xd9])
       = pyvips.height resized).
Proof.
  apply (recorded_width_and_height Sample.world Sample.animation
           (ensure_thumbnails Sample.world Sample.animation).1
           (ensure_thumbnails Sample.world Sample.animation).2
           (metadata (ensure_thumbnails Sample.world Sample.animation).2)
           1%nat).
  - apply surjective_pairing.
  - reflexivity.
  - reflexivity.
  - vm_compute. reflexivity.
Defined.

(** The instance knows the dimensions, the row does not: after the run the
    row has the two new entries and still not the dimensions. *)
Lemma save_touches_only_thumbnail_metadata_witness :
  ∃ row new,
    table (Sample.stale_state (Sample.attachment 1 []) Sample.tall) !! 7
      = Some row
    ∧ metadata
        (ensure_thumbnails Sample.world
           (Sample.stale_state (Sample.attachment 1 []) Sample.tall)).2
      = metadata (Sample.stale_state (Sample.attachment 1 []) Sample.tall)
        ++ new
    ∧ 2 = Z.of_nat (length new)
    ∧ (missing_thumbnails Sample.world
         (image_attachment
            (Sample.stale_state (Sample.attachment 1 []) Sample.tall)) ≠ [] →
       set_thumbnail_metadata
         [Sample.stored_jpg_100; Sample.stored_webp_100_anim]
         (Sample.stale_row (Sample.attachment 1 []))
       = set_thumbnail_metadata
           (metadata
              (Sample.stale_state (Sample.attachment 1 []) Sample.tall)
            ++ new) row
       ∧ thumbnail_metadata
           (set_thumbnail_metadata
              [Sample.stored_jpg_100; Sample.stored_webp_100_anim]
              (Sample.stale_row (Sample.attachment 1 [])))
         = metadata (Sample.stale_state (Sample.attachment 1 []) Sample.tall)
           ++ new
       ∧ table
           (ensure_thumbnails Sample.world
              (Sample.stale_state (Sample.attachment 1 []) Sample.tall)).2
         = <[7 := set_thumbnail_metadata
                    (metadata
                       (Sample.stale_state (Sample.attachment 1 [])
                          Sample.tall) ++ new) row]>
             (table (Sample.stale_state (Sample.attachment 1 []) Sample.tall))
       ∧ ∀ evs,
           trace
             (ensure_thumbnails Sample.world
                (Sample.stale_state (Sample.attachment 1 []) Sample.tall)).2
           = trace (Sample.stale_state (Sample.attachment 1 []) Sample.tall)
             ++ evs →
           List.filter is_write evs = [EvSave 7 ["thumbnail_metadata"]])
    ∧ (missing_thumbnails Sample.world
         (image_attachment
            (Sample.stale_state (Sample.attachment 1 []) Sample.tall)) = [] →
       set_thumbnail_metadata
         [Sample.stored_jpg_100; Sample.stored_webp_100_anim]
         (Sample.stale_row (Sample.attachment 1 [])) = row
       ∧ (ensure_thumbnails Sample.world
            (Sample.stale_state (Sample.attachment 1 []) Sample.tall)).2
         = Sample.stale_state (Sample.attachment 1 []) Sample.tall)
    ∧ 7 = id row
    ∧ "2/ab/pic" = path_id row
    ∧ 0 = original_width_px row
    ∧ 0 = original_height_px row
    ∧ 1 = frames row
    ∧ (∀ pk, pk ≠ 7 →
         table
           (ensure_thumbnails Sample.world
              (Sample.stale_state (Sample.attachment 1 []) Sample.tall)).2
           !! pk
         = table (Sample.stale_state (Sample.attachment 1 []) Sample.tall)
             !! pk)
    ∧ (∀ evs pk update_fields,
         trace
           (ensure_thumbnails Sample.world
              (Sample.stale_state (Sample.attachment 1 []) Sample.tall)).2
         = trace (Sample.stale_state (Sample.attachment 1 []) Sample.tall)
             ++ evs →
         In (EvSave pk update_fields) evs →
         pk = 7 ∧ update_fields = ["thumbnail_metadata"])
    ∧ 2 = Z.of_nat
            (length
               (metadata
                  (ensure_thumbnails Sample.world
                     (Sample.stale_state (Sample.attachment 1 [])
                        Sample.tall)).2))
          - Z.of_nat
              (length
                 (metadata
                    (Sample.stale_state (Sample.attachment 1 []) Sample.tall))).
Proof.
  apply (save_touches_only_thumbnail_metadata Sample.world
           (Sample.stale_state (Sample.attachment 1 []) Sample.tall) 2
           (ensure_thumbnails Sample.world
              (Sample.stale_state (Sample.attachment 1 []) Sample.tall)).2
           (set_thumbnail_metadata
              [Sample.stored_jpg_100; Sample.stored_webp_100_anim]
              (Sample.stale_row (Sample.attachment 1 [])))).
  - vm_compute. reflexivity.
  - vm_compute. reflexivity.
Defined.

Lemma metadata_grows_by_returned_count_witness :
  ∃ new,
    metadata (ensure_thumbnails Sample.world Sample.still).2
    = metadata Sample.still ++ new
    ∧ Z.of_nat (length new) = 2
    ∧ Z.of_nat (length (metadata (ensure_thumbnails Sample.world Sample.still).2))
      = Z.of_nat (length (metadata Sample.still)) + 2
    ∧ (∀ i e, metadata Sample.still !! i = Some e →
         metadata (ensure_thumbnails Sample.world Sample.still).2 !! i = Some e)
    ∧ Forall2 (λ f e, ∃ image_bytes,
          save_attachment_contents Sample.world
            (path_id (image_attachment Sample.still))
            (storage Sample.still) = inr image_bytes
          ∧ derivative Sample.world (image_attachment Sample.still)
              image_bytes f = Some e)
        (take (length new)
           (missing_thumbnails Sample.world (image_attachment Sample.still)))
        new.
Proof.
  apply (metadata_grows_by_returned_count Sample.world Sample.still 2
           (ensure_thumbnails Sample.world Sample.still).2).
  vm_compute. reflexivity.
Defined.

(** * Further properties *)

(** ** The calls of one iteration *)

Lemma resize_and_upload_events env image_bytes f s r s' :
  resize_and_upload env image_bytes f s = (r, s') →
  ∃ evs,
    trace s' = trace s ++ evs
    ∧ List.filter is_fetch evs = []
    ∧ (List.filter is_upload evs = [] → storage s' = storage s)
    ∧ match r with
      | Normal _ =>
          ∃ e data,
            derivative env (image_attachment s) image_bytes f = Some e
            ∧ evs = iteration_events env (image_attachment s) f e
            ∧ Stored.byte_size e = Z.of_nat (length data)
            ∧ upload_message_attachment env
                (get_image_thumbnail_path env (image_attachment s) f)
                (Stored.content_type e) data (storage s)
              = inr (storage s')
      | Raise _ => (length (List.filter is_upload evs) ≤ 1)%nat
      end.
Proof.
  unfold resize_and_upload, derivative, iteration_events, resize_call.
  unfold_M. destruct s as [a t st w tr]; simpl.
  destruct (thumbnail_buffer _ _ _ _ _ _) as [m1|resized]; simpl;
    [body_events_exit; lia|].
  destruct (write_to_buffer _ _ _) as [m2|tb]; simpl; [body_events_exit; lia|].
  destruct (guess_type _ _) as [ct|]; simpl; [|body_events_exit; lia].
  destruct (upload_message_attachment _ _ _ _ _) as [m4|st'] eqn:Hup; simpl;
    [body_events_exit; lia|].
  destruct (output_height _ _) as [m5|h]; simpl; [body_events_exit; lia|].
  body_events_exit. eexists. exists tb. simpl.
  split; [reflexivity|]. split; [reflexivity|]. split; [reflexivity|].
  exact Hup.
Qed.

Lemma filter_upload_iteration_events env a f e :
  List.filter is_upload (iteration_events env a f e)
  = [EvUpload (get_image_thumbnail_path env a f) (Stored.content_type e)
       (Stored.byte_size e)].
Proof. reflexivity. Qed.

(** ** The calls of the loop *)

Lemma for_each_events env image_bytes needed s r s' :
  for_each needed (resize_and_upload env image_bytes) s = (r, s') →
  ∃ new evs extra,
    metadata s' = metadata s ++ new
    ∧ (length new ≤ length needed)%nat
    ∧ trace s' = trace s ++ evs
    ∧ List.filter is_fetch evs = []
    ∧ (List.filter is_upload evs = [] → storage s' = storage s)
    ∧ List.filter is_upload evs
      = List.filter is_upload
          (loop_events env (image_attachment s) (take (length new) needed) new)
        ++ extra
    ∧ (length extra ≤ 1)%nat
    ∧ (r = Normal () →
       length new = length needed
       ∧ evs = loop_events env (image_attachment s) needed new).
Proof.
  revert s. induction needed as [|f needed IH]; intros s.
  - intros [= <- <-]. exists [], [], []. simpl. rewrite !app_nil_r.
    repeat split; auto.
  - rewrite for_each_cons.
    destruct (resize_and_upload env image_bytes f s) as [[[]|ex] s1] eqn:Hbody.
    + pose proof (resize_and_upload_spec _ _ _ _ _ _ Hbody)
        as (_ & Ha & _ & e & He & Hmd & _).
      apply resize_and_upload_events in Hbody
        as (evs1 & Htr & Hf & Hst & e' & data & He' & -> & _ & _).
      rewrite He in He'. injection He' as <-.
      intros Hloop. apply IH in Hloop
        as (new & evs & extra & Hmd' & Hlen & Htr' & Hf' & Hst' & Hup & Hex & Hr).
      assert (Ha1 : image_attachment s1 = appended e (image_attachment s)).
      { rewrite Ha, Hmd. reflexivity. }
      rewrite Ha1 in Hup, Hr.
      exists (e :: new), (iteration_events env (image_attachment s) f e ++ evs),
        extra.
      split. { rewrite Hmd', Hmd, <- app_assoc. reflexivity. }
      split. { simpl. lia. }
      split. { rewrite Htr', Htr, <- app_assoc. reflexivity. }
      split. { by rewrite List.filter_app, Hf, Hf'. }
      split. { rewrite List.filter_app, filter_upload_iteration_events.
               discriminate. }
      split. { simpl length. simpl take. simpl loop_events.
               rewrite !List.filter_app, Hup, !filter_upload_iteration_events.
               reflexivity. }
      split; [exact Hex|].
      intros ->. destruct (Hr eq_refl) as [Hlen' ->]. simpl. by rewrite Hlen'.
    + intros [= <- <-].
      pose proof (resize_and_upload_spec _ _ _ _ _ _ Hbody)
        as (_ & _ & _ & Hmd & _).
      apply resize_and_upload_events in Hbody
        as (evs1 & Htr & Hf & Hst & Hup).
      exists [], evs1, (List.filter is_upload evs1). simpl.
      rewrite Hmd, app_nil_r.
      split; [reflexivity|]. split; [lia|]. split; [exact Htr|].
      split; [exact Hf|]. split; [exact Hst|]. split; [reflexivity|].
      split; [exact Hup|]. discriminate.
Qed.

(** ** The end of a run *)

Lemma save_then_return_events s r s' :
  (save ["thumbnail_metadata"];; gets written_images) s = (r, s') →
  storage s' = storage s
  ∧ trace s'
    = trace s ++ [EvSave (id (image_attachment s)) ["thumbnail_metadata"]].
Proof.
  unfold mbind, M_bind.
  destruct (table s !! id (image_attachment s)) as [row|] eqn:Hrow.
  - rewrite (save_thumbnail_metadata_found s row Hrow).
    intros [= <- <-]. split; reflexivity.
  - rewrite (save_not_found s _ Hrow). intros [= <- <-]. split; reflexivity.
Qed.

(** What the function does after the loop, event by event. *)
Lemma after_loop_events r2 s2 r s' :
  after_loop (r2, s2) = (r, s') →
  storage s' = storage s2
  ∧ ∃ tail,
      trace s' = trace s2 ++ tail
      ∧ ((tail = [] ∧ ∃ e, r2 = Raise e ∧ r = Raise e
                           ∧ is_pyvips_Error e = false)
         ∨ (tail = [EvSave (id (image_attachment s2)) ["thumbnail_metadata"]]
            ∧ r2 = Normal ())
         ∨ (∃ e, r2 = Raise e ∧ is_pyvips_Error e = true
                 ∧ tail = [EvLog (LogException e);
                           EvDelete (id (image_attachment s2))]
                 ∧ r = Normal 0)
         ∨ (∃ e, r2 = Raise e ∧ is_pyvips_Error e = true
                 ∧ tail = [EvLog (LogException e);
                           EvSave (id (image_attachment s2))
                             ["thumbnail_metadata"]])).
Proof.
  unfold after_loop. destruct r2 as [[]|e].
  - intros H. apply save_then_return_events in H as [Hst Htr].
    split; [exact Hst|]. eexists. split; [exact Htr|]. right; left. by split.
  - destruct (is_pyvips_Error e) eqn:He.
    + unfold mbind at 1, M_bind at 1. rewrite on_pyvips_Error_eq.
      destruct ((written_images s2 =? 0) && _).
      * unfold mret, M_ret. intros [= <- <-]. simpl. split; [reflexivity|].
        eexists. split; [by rewrite <- app_assoc|].
        right; right; left. exists e. by repeat split.
      * intros H. apply save_then_return_events in H as [Hst Htr].
        simpl in Hst, Htr. split; [exact Hst|].
        eexists. split; [by rewrite Htr, <- app_assoc|].
        right; right; right. exists e. by repeat split.
    + intros [= <- <-]. split; [reflexivity|]. exists [].
      split; [by rewrite app_nil_r|]. left. split; [reflexivity|]. by exists e.
Qed.

(** A run that found something to do, event by event: the fetch, the
    events of the loop, the events of the end. *)
Lemma ensure_thumbnails_events env s r s' :
  ensure_thumbnails env s = (r, s') →
  missing_thumbnails env (image_attachment s) ≠ [] →
  let a := image_attachment s in
  let needed := missing_thumbnails env a in
  ∃ new loop_evs extra tail,
    metadata s' = metadata s ++ new
    ∧ (length new ≤ length needed)%nat
    ∧ trace s' = trace s ++ EvFetch (path_id a) :: loop_evs ++ tail
    ∧ List.filter is_fetch loop_evs = []
    ∧ List.filter is_write loop_evs = []
    ∧ (List.filter is_upload loop_evs = [] → storage s' = storage s)
    ∧ List.filter is_upload loop_evs
      = List.filter is_upload (loop_events env a (take (length new) needed) new)
        ++ extra
    ∧ (length extra ≤ 1)%nat
    ∧ ((tail = [] ∧ ∃ e, r = Raise e ∧ is_pyvips_Error e = false)
       ∨ (tail = [EvSave (id a) ["thumbnail_metadata"]]
          ∧ length new = length needed
          ∧ loop_evs = loop_events env a needed new)
       ∨ (∃ e, is_pyvips_Error e = true
               ∧ tail = [EvLog (LogException e); EvDelete (id a)]
               ∧ r = Normal 0)
       ∨ (∃ e, is_pyvips_Error e = true
               ∧ tail = [EvLog (LogException e);
                         EvSave (id a) ["thumbnail_metadata"]])).
Proof.
  intros Hrun Hne a needed.
  destruct (fetch_contents env (path_id a) (with_written_images 0 s))
    as [[image_bytes|e] s1] eqn:Hfetch.
  2:{ rewrite (ensure_thumbnails_fetch_failed env s e s1 Hne Hfetch) in Hrun.
      injection Hrun as <- <-.
      apply fetch_contents_spec in Hfetch as [-> (msg & -> & _)].
      exists [], [], [], []. simpl. rewrite app_nil_r.
      split; [reflexivity|]. split; [lia|]. split; [reflexivity|].
      split; [reflexivity|]. split; [reflexivity|]. split; [reflexivity|].
      split; [reflexivity|]. split; [lia|]. left. split; [reflexivity|].
      by eexists. }
  rewrite (ensure_thumbnails_fetched env s image_bytes s1 Hne Hfetch) in Hrun.
  apply fetch_contents_spec in Hfetch as [-> _].
  destruct (for_each _ _ _) as [r2 s2] eqn:Hloop.
  pose proof (for_each_spec _ _ _ _ _ _ Hloop)
    as (k & new0 & evs0 & Hmd0 & _ & _ & _ & Ha & _ & Htr0 & Hws & _).
  apply for_each_events in Hloop
    as (new & evs & extra & Hmd & Hlen & Htr & Hf & Hst & Hup & Hex & Hr2).
  rewrite Htr in Htr0. apply app_inv_head in Htr0 as <-.
  pose proof (after_loop_spec _ _ _ _ Hrun) as [Ha' _].
  apply after_loop_events in Hrun as (Hst' & tail & Htr' & Htail).
  simpl in Hmd, Htr, Hst, Hup, Hr2, Ha.
  change (metadata s2 = metadata s ++ new) in Hmd.
  fold a in Hup, Hr2, Ha. fold needed in Hlen, Hup, Hr2.
  assert (Hid : id (image_attachment s2) = id a) by (by rewrite Ha).
  rewrite Hid in Htail.
  exists new, evs, extra, tail.
  split. { unfold metadata in *. by rewrite Ha'. }
  split; [exact Hlen|].
  split. { rewrite Htr', Htr, <- !app_assoc. reflexivity. }
  split; [exact Hf|]. split; [exact Hws|].
  split. { intros Hnone. rewrite Hst'. by apply Hst. }
  split; [exact Hup|]. split; [exact Hex|].
  destruct Htail as [(-> & e & -> & -> & He)
                    |[(-> & ->)
                     |[(e & -> & He & -> & ->)|(e & -> & He & ->)]]].
  - left. split; [reflexivity|]. by exists e.
  - right; left. destruct (Hr2 eq_refl) as [Hlen' ->]. by repeat split.
  - right; right; left. exists e. by repeat split.
  - right; right; right. exists e. by split.
Qed.

(** ** Runs of [ensure_thumbnails] *)

(** X1.  The original is read before the [try] statement: when the
    backend cannot deliver it, its error is the outcome of
    [ensure_thumbnails]; the table, the backend and the instance are as
    they were, and the fetch is the only call the run has made. *)
Theorem fetch_failure_propagates env s msg :
  missing_thumbnails env (image_attachment s) ≠ [] →
  save_attachment_contents env (path_id (image_attachment s)) (storage s)
    = inl msg →
  ∃ s',
    ensure_thumbnails env s = (Raise (StorageError msg), s')
    ∧ table s' = table s
    ∧ storage s' = storage s
    ∧ image_attachment s' = image_attachment s
    ∧ trace s' = trace s ++ [EvFetch (path_id (image_attachment s))].
Proof.
  intros Hne Hfetch.
  eexists. split.
  - apply ensure_thumbnails_fetch_failed; [exact Hne|].
    unfold fetch_contents. unfold_M. simpl. rewrite Hfetch. reflexivity.
  - simpl. repeat split.
Qed.

(** The loop body runs to its end when the format has a derivative and the
    backend takes the upload. *)
Lemma resize_and_upload_succeeds env image_bytes f s e :
  derivative env (image_attachment s) image_bytes f = Some e →
  (∀ path ct data st, ∃ st',
     upload_message_attachment env path ct data st = inr st') →
  ∃ s', resize_and_upload env image_bytes f s = (Normal (), s').
Proof.
  unfold derivative, resize_and_upload. unfold_M. simpl. intros Hd Hup.
  destruct (thumbnail_buffer _ _ _ _ _ _) as [|resized]; [done|]. simpl.
  destruct (write_to_buffer _ _ _) as [|data]; [done|]. simpl.
  destruct (guess_type _ _) as [ct|]; [|done].
  destruct (output_height f resized) as [|h]; [done|]. simpl.
  destruct (Hup (get_image_thumbnail_path env (image_attachment s) f) ct data
              (storage s)) as [st' ->].
  simpl. eauto.
Qed.

Lemma for_each_succeeds env image_bytes needed s :
  Forall (λ f, is_Some (derivative env (image_attachment s) image_bytes f))
    needed →
  (∀ path ct data st, ∃ st',
     upload_message_attachment env path ct data st = inr st') →
  ∃ s', for_each needed (resize_and_upload env image_bytes) s = (Normal (), s').
Proof.
  intros Hall Hup. revert s Hall.
  induction needed as [|f needed IH]; intros s Hall; [by eexists|].
  apply Forall_cons in Hall as [[e He] Hall].
  destruct (resize_and_upload_succeeds _ _ _ _ _ He Hup) as [s1 Hbody].
  rewrite for_each_cons, Hbody.
  apply IH.
  apply resize_and_upload_spec in Hbody as (_ & -> & _). exact Hall.
Qed.

Lemma Forall2_functional {A B} (g : A → option B) (l : list A) (k1 k2 : list B) :
  Forall2 (λ x y, g x = Some y) l k1 →
  Forall2 (λ x y, g x = Some y) l k2 →
  k1 = k2.
Proof.
  intros H1. revert k2. induction H1 as [|x y l k1 Hxy _ IH]; intros k2 H2.
  - by apply Forall2_nil_inv_l in H2.
  - apply Forall2_cons_inv_l in H2 as (y' & k2' & Hxy' & H2 & ->).
    rewrite Hxy in Hxy'. injection Hxy' as <-. f_equal. by apply IH.
Qed.

(** X2.  When the original can be read, every needed format has a
    derivative (the resize, the encoding, the lookup of the content type
    and the reading of the height at line 94 all succeed for it), the
    backend takes every upload and the row exists, the run writes them
    all: it returns their number, appends their entries in order, saves
    the list to the row, and its trace is the fetch, then for each format
    in turn the resize, the encoding and the upload, then the save. *)
Theorem all_formats_written env s image_bytes new row :
  missing_thumbnails env (image_attachment s) ≠ [] →
  save_attachment_contents env (path_id (image_attachment s)) (storage s)
    = inr image_bytes →
  Forall2 (λ f e, derivative env (image_attachment s) image_bytes f = Some e)
    (missing_thumbnails env (image_attachment s)) new →
  (∀ path ct data st, ∃ st',
     upload_message_attachment env path ct data st = inr st') →
  table s !! id (image_attachment s) = Some row →
  ∃ s',
    ensure_thumbnails env s
    = (Normal (Z.of_nat (length (missing_thumbnails env (image_attachment s)))),
       s')
    ∧ metadata s' = metadata s ++ new
    ∧ table s'
      = <[id (image_attachment s)
          := set_thumbnail_metadata (metadata s ++ new) row]> (table s)
    ∧ trace s'
      = trace s
        ++ EvFetch (path_id (image_attachment s))
           :: loop_events env (image_attachment s)
                (missing_thumbnails env (image_attachment s)) new
        ++ [EvSave (id (image_attachment s)) ["thumbnail_metadata"]].
Proof.
  intros Hne Hbytes Hall Hup Hrow.
  set (a := image_attachment s) in *.
  set (needed := missing_thumbnails env a) in *.
  set (s1 := with_trace (trace s ++ [EvFetch (path_id a)])
               (with_written_images 0 s)).
  assert (Hfetch : fetch_contents env (path_id a) (with_written_images 0 s)
                   = (Normal image_bytes, s1)).
  { unfold fetch_contents. unfold_M. simpl. fold a. by rewrite Hbytes. }
  destruct (for_each_succeeds env image_bytes needed s1) as [s2 Hloop];
    [|exact Hup|].
  { eapply Forall2_Forall_l; [exact Hall|]. apply Forall_true. by eauto. }
  pose proof (ensure_thumbnails_fetched env s image_bytes s1 Hne Hfetch) as Hrun.
  fold a needed in Hrun. rewrite Hloop in Hrun.
  pose proof (for_each_spec _ _ _ _ _ _ Hloop)
    as (k & new0 & evs0 & Hmd & Hlen & Hw & Ht & Ha & Hall0 & Htr & _ & -> & _).
  rewrite firstn_all in Hall0. simpl in Hall0, Hmd, Hw, Ht, Ha, Htr.
  fold a in Hall0, Ha.
  change (metadata s2 = metadata s ++ new0) in Hmd.
  assert (new0 = new) as -> by (eapply Forall2_functional; eassumption).
  apply for_each_events in Hloop
    as (new1 & evs & _ & Hmd1 & _ & Htr1 & _ & _ & _ & _ & Hr).
  simpl in Hmd1, Htr1, Hr. fold a in Hr.
  change (metadata s2 = metadata s ++ new1) in Hmd1.
  rewrite Hmd in Hmd1. apply app_inv_head in Hmd1 as <-.
  destruct (Hr eq_refl) as [_ ->].
  assert (Hid : id (image_attachment s2) = id a) by (by rewrite Ha).
  unfold after_loop in Hrun. unfold mbind, M_bind in Hrun.
  rewrite (save_thumbnail_metadata_found _ row) in Hrun
    by (by rewrite Hid, Ht).
  unfold gets in Hrun. simpl in Hrun. rewrite Hw, Hid, Ht, Hmd in Hrun.
  eexists. split; [exact Hrun|]. simpl.
  split. { exact Hmd. }
  split; [reflexivity|].
  rewrite Htr1, <- !app_assoc. reflexivity.
Qed.

Lemma in_filter_nil {A} (p : A → bool) (l : list A) x :
  List.filter p l = [] → In x l → p x = true → False.
Proof.
  intros Hnil Hin Hp.
  assert (H : In x (List.filter p l)) by (apply List.filter_In; by split).
  by rewrite Hnil in H.
Qed.

(** X3.  A run that finds a format missing reads the original once, as
    its first call, whatever happens afterwards. *)
Theorem original_fetched_once env s r s' evs :
  ensure_thumbnails env s = (r, s') →
  missing_thumbnails env (image_attachment s) ≠ [] →
  trace s' = trace s ++ evs →
  ∃ rest,
    evs = EvFetch (path_id (image_attachment s)) :: rest
    ∧ List.filter is_fetch rest = [].
Proof.
  intros Hrun Hne Hevs.
  destruct (ensure_thumbnails_events _ _ _ _ Hrun Hne)
    as (new & loop_evs & extra & tail & _ & _ & Htr & Hf & _ & _ & _ & _ & Htail).
  rewrite Htr in Hevs. apply app_inv_head in Hevs as <-.
  eexists. split; [reflexivity|].
  rewrite List.filter_app, Hf.
  destruct Htail as [[-> _]|[(-> & _)|[(e & _ & -> & _)|(e & _ & ->)]]];
    reflexivity.
Qed.

Lemma loop_events_upload_lookup env a fs es i f e :
  fs !! i = Some f → es !! i = Some e →
  List.filter is_upload (loop_events env a fs es) !! i
  = Some (EvUpload
            (get_image_thumbnail_path env
               (set_thumbnail_metadata (thumbnail_metadata a ++ take i es) a) f)
            (Stored.content_type e) (Stored.byte_size e)).
Proof.
  revert a fs es. induction i as [|i IH]; intros a fs es Hf He;
    destruct fs as [|f0 fs]; destruct es as [|e0 es]; try discriminate.
  - injection Hf as ->. injection He as ->. simpl.
    by rewrite app_nil_r, set_thumbnail_metadata_id.
  - simpl in Hf, He.
    change (loop_events env a (f0 :: fs) (e0 :: es))
      with (iteration_events env a f0 e0
            ++ loop_events env (appended e0 a) fs es).
    rewrite List.filter_app, filter_upload_iteration_events. simpl.
    rewrite (IH (appended e0 a) fs es Hf He). simpl.
    by rewrite <- app_assoc.
Qed.

(** ** What reaches the backend *)

(** An iteration that runs to its end has had its upload taken; one that
    raises has left the backend alone or has had its upload taken. *)
Lemma resize_and_upload_storage env image_bytes f s r s' :
  resize_and_upload env image_bytes f s = (r, s') →
  match r with
  | Normal _ =>
      ∃ e data,
        metadata s' = metadata s ++ [e]
        ∧ Stored.byte_size e = Z.of_nat (length data)
        ∧ upload_message_attachment env
            (get_image_thumbnail_path env (image_attachment s) f)
            (Stored.content_type e) data (storage s)
          = inr (storage s')
  | Raise _ =>
      storage s' = storage s
      ∨ ∃ ct data,
          upload_message_attachment env
            (get_image_thumbnail_path env (image_attachment s) f)
            ct data (storage s)
          = inr (storage s')
  end.
Proof.
  unfold resize_and_upload, metadata. unfold_M.
  destruct s as [a t st w tr]; simpl.
  destruct (thumbnail_buffer _ _ _ _ _ _) as [m1|resized]; simpl;
    [intros [= <- <-]; by left|].
  destruct (write_to_buffer _ _ _) as [m2|tb]; simpl;
    [intros [= <- <-]; by left|].
  destruct (guess_type _ _) as [ct|]; simpl; [|intros [= <- <-]; by left].
  destruct (upload_message_attachment _ _ _ _ _) as [m4|st'] eqn:Hup; simpl;
    [intros [= <- <-]; by left|].
  destruct (output_height _ _) as [m5|h]; simpl; intros [= <- <-]; simpl.
  - right. by exists ct, tb.
  - eexists. exists tb. simpl. split; [reflexivity|]. split; [reflexivity|].
    exact Hup.
Qed.

Lemma for_each_uploads env image_bytes needed s r s' :
  for_each needed (resize_and_upload env image_bytes) s = (r, s') →
  ∃ new st,
    metadata s' = metadata s ++ new
    ∧ uploads env (image_attachment s) (take (length new) needed) new
        (storage s) st
    ∧ (storage s' = st
       ∨ ∃ f ct data,
           needed !! length new = Some f
           ∧ upload_message_attachment env
               (get_image_thumbnail_path env
                  (set_thumbnail_metadata (metadata s ++ new)
                     (image_attachment s)) f)
               ct data st
             = inr (storage s')).
Proof.
  revert s. induction needed as [|f needed IH]; intros s.
  - intros [= <- <-]. exists [], (storage s). rewrite app_nil_r.
    split; [reflexivity|]. split; [constructor|]. by left.
  - rewrite for_each_cons.
    destruct (resize_and_upload env image_bytes f s) as [[[]|ex] s1] eqn:Hbody.
    + pose proof (resize_and_upload_spec _ _ _ _ _ _ Hbody)
        as (_ & Ha & _ & e0 & _ & Hmd0 & _).
      apply resize_and_upload_storage in Hbody
        as (e & data & Hmd & Hsize & Hup).
      rewrite Hmd0 in Hmd. apply app_inv_head in Hmd. injection Hmd as <-.
      assert (Ha1 : image_attachment s1 = appended e0 (image_attachment s)).
      { rewrite Ha, Hmd0. reflexivity. }
      intros Hloop. apply IH in Hloop as (new & st & Hmd' & Hups & Hlast).
      exists (e0 :: new), st.
      split. { rewrite Hmd', Hmd0, <- app_assoc. reflexivity. }
      split. { simpl. econstructor; [exact Hup|exact Hsize|].
               by rewrite <- Ha1. }
      destruct Hlast as [Hst|(f' & ct & data' & Hf' & Hup')]; [by left|].
      right. exists f', ct, data'. split; [exact Hf'|].
      rewrite <- Hup'. do 2 f_equal.
      rewrite Ha1, Hmd0, <- app_assoc. reflexivity.
    + intros [= <- <-].
      pose proof (resize_and_upload_spec _ _ _ _ _ _ Hbody)
        as (_ & _ & _ & Hmd & _).
      apply resize_and_upload_storage in Hbody as Hst.
      exists [], (storage s). rewrite app_nil_r.
      split; [exact Hmd|]. split; [constructor|].
      destruct Hst as [Hst|(ct & data & Hup)]; [by left|].
      right. exists f, ct, data. split; [reflexivity|].
      unfold metadata. by rewrite set_thumbnail_metadata_id.
Qed.

(** The backend after a run, whatever its outcome. *)
Lemma ensure_thumbnails_uploads env s r s' new :
  ensure_thumbnails env s = (r, s') →
  metadata s' = metadata s ++ new →
  ∃ st,
    uploads env (image_attachment s)
      (take (length new) (missing_thumbnails env (image_attachment s))) new
      (storage s) st
    ∧ (storage s' = st
       ∨ ∃ f ct data,
           missing_thumbnails env (image_attachment s) !! length new = Some f
           ∧ upload_message_attachment env
               (get_image_thumbnail_path env
                  (set_thumbnail_metadata (metadata s ++ new)
                     (image_attachment s)) f)
               ct data st
             = inr (storage s')).
Proof.
  intros Hrun Hnew.
  destruct (missing_thumbnails env (image_attachment s)) as [|f0 rest0]
    eqn:Hneeded.
  { rewrite ensure_thumbnails_early in Hrun by exact Hneeded.
    injection Hrun as <- <-.
    rewrite <- (app_nil_r (metadata s)) in Hnew at 1.
    apply app_inv_head in Hnew as <-.
    exists (storage s). split; [constructor|]. by left. }
  assert (Hne : missing_thumbnails env (image_attachment s) ≠ [])
    by (by rewrite Hneeded).
  rewrite <- Hneeded. clear Hneeded f0 rest0.
  destruct (fetch_contents env (path_id (image_attachment s))
              (with_written_images 0 s))
    as [[image_bytes|e] s1] eqn:Hfetch.
  2:{ rewrite (ensure_thumbnails_fetch_failed env s e s1 Hne Hfetch) in Hrun.
      injection Hrun as <- <-.
      apply fetch_contents_spec in Hfetch as [-> _].
      change (metadata s = metadata s ++ new) in Hnew.
      rewrite <- (app_nil_r (metadata s)) in Hnew at 1.
      apply app_inv_head in Hnew as <-.
      exists (storage s). split; [constructor|]. by left. }
  rewrite (ensure_thumbnails_fetched env s image_bytes s1 Hne Hfetch) in Hrun.
  apply fetch_contents_spec in Hfetch as [-> _].
  destruct (for_each _ _ _) as [r2 s2] eqn:Hloop.
  apply for_each_uploads in Hloop as (new' & st & Hmd & Hups & Hlast).
  pose proof (after_loop_spec _ _ _ _ Hrun) as [Ha' _].
  apply after_loop_events in Hrun as (Hst' & _).
  simpl in Hmd, Hups, Hlast.
  change (metadata s2 = metadata s ++ new') in Hmd.
  assert (new' = new) as ->.
  { unfold metadata in *. rewrite Ha', Hmd in Hnew.
    by apply app_inv_head in Hnew. }
  exists st. split; [exact Hups|]. by rewrite Hst'.
Qed.

(** X4.  Every entry a run appends stands for an upload that the backend
    has taken.  The backend after the run is the backend before it with
    the derivatives of the new entries handed to it in order and taken,
    each at the path computed for its format, with the entry's content
    type and a buffer of the entry's byte size; after them the backend has
    taken at most one more upload, made for the next needed format, which
    has no entry.  As calls: the [i]-th call to the backend in the run is
    made for the [i]-th needed format, to the path computed from the
    instance with the entries appended so far, with the content type and
    the byte size that the [i]-th new entry records, and the run makes at
    most one call more than it appends entries. *)
Theorem entries_follow_uploads env s r s' new evs :
  ensure_thumbnails env s = (r, s') →
  metadata s' = metadata s ++ new →
  trace s' = trace s ++ evs →
  (∃ st,
     uploads env (image_attachment s)
       (take (length new) (missing_thumbnails env (image_attachment s))) new
       (storage s) st
     ∧ (storage s' = st
        ∨ ∃ f ct data,
            missing_thumbnails env (image_attachment s) !! length new = Some f
            ∧ upload_message_attachment env
                (get_image_thumbnail_path env
                   (set_thumbnail_metadata (metadata s ++ new)
                      (image_attachment s)) f)
                ct data st
              = inr (storage s')))
  ∧ (length (List.filter is_upload evs) ≤ length new + 1)%nat
  ∧ ∀ i f e,
      missing_thumbnails env (image_attachment s) !! i = Some f →
      new !! i = Some e →
      List.filter is_upload evs !! i
      = Some (EvUpload
                (get_image_thumbnail_path env
                   (set_thumbnail_metadata (metadata s ++ take i new)
                      (image_attachment s)) f)
                (Stored.content_type e) (Stored.byte_size e)).
Proof.
  intros Hrun Hnew Hevs.
  split; [exact (ensure_thumbnails_uploads _ _ _ _ _ Hrun Hnew)|].
  destruct (missing_thumbnails env (image_attachment s)) as [|f0 rest0] eqn:Hneeded.
  { rewrite ensure_thumbnails_early in Hrun by exact Hneeded.
    injection Hrun as <- <-.
    rewrite <- (app_nil_r (trace s)) in Hevs at 1.
    apply app_inv_head in Hevs as <-.
    split; [simpl; lia|]. intros i f e Hf. by rewrite lookup_nil in Hf. }
  assert (Hne : missing_thumbnails env (image_attachment s) ≠ [])
    by (by rewrite Hneeded).
  rewrite <- Hneeded. clear Hneeded f0 rest0.
  destruct (ensure_thumbnails_events _ _ _ _ Hrun Hne)
    as (new' & loop_evs & extra & tail & Hmd & Hlen & Htr & _ & _ & _
        & Hup & Hex & Htail).
  rewrite Hmd in Hnew. apply app_inv_head in Hnew as ->.
  rewrite Htr in Hevs. apply app_inv_head in Hevs as <-.
  assert (Huploads : List.filter is_upload
                       (EvFetch (path_id (image_attachment s))
                        :: loop_evs ++ tail)
                     = List.filter is_upload
                         (loop_events env (image_attachment s)
                            (take (length new)
                               (missing_thumbnails env (image_attachment s)))
                            new)
                       ++ extra).
  { simpl. rewrite List.filter_app, Hup.
    destruct Htail as [[-> _]|[(-> & _)|[(e & _ & -> & _)|(e & _ & ->)]]];
      simpl; by rewrite app_nil_r. }
  rewrite Huploads. split.
  - rewrite length_app.
    assert (Hcount : ∀ a fs es,
              (length (List.filter is_upload (loop_events env a fs es))
               ≤ length es)%nat).
    { intros a fs. revert a. induction fs as [|f fs IH]; intros a [|e es];
        try (simpl; lia).
      change (loop_events env a (f :: fs) (e :: es))
        with (iteration_events env a f e
              ++ loop_events env (appended e a) fs es).
      rewrite List.filter_app, length_app, filter_upload_iteration_events.
      specialize (IH (appended e a) es). simpl. lia. }
    specialize (Hcount (image_attachment s)
                  (take (length new)
                     (missing_thumbnails env (image_attachment s))) new).
    lia.
  - intros i f e Hf He.
    apply lookup_app_l_Some, loop_events_upload_lookup; [|exact He].
    rewrite lookup_take_lt; [exact Hf|]. by eapply lookup_lt_Some.
Qed.

(** X5.  The backend changes only through uploads: a run that made no
    call to [upload_message_attachment] leaves it as it was. *)
Theorem storage_changes_only_by_upload env s r s' evs :
  ensure_thumbnails env s = (r, s') →
  trace s' = trace s ++ evs →
  List.filter is_upload evs = [] →
  storage s' = storage s.
Proof.
  intros Hrun Hevs Hnone.
  destruct (missing_thumbnails env (image_attachment s)) as [|f0 rest0] eqn:Hneeded.
  { rewrite ensure_thumbnails_early in Hrun by exact Hneeded.
    by injection Hrun as <- <-. }
  assert (Hne : missing_thumbnails env (image_attachment s) ≠ [])
    by (by rewrite Hneeded).
  destruct (ensure_thumbnails_events _ _ _ _ Hrun Hne)
    as (new' & loop_evs & extra & tail & _ & _ & Htr & _ & _ & Hst & _).
  rewrite Htr in Hevs. apply app_inv_head in Hevs as <-.
  apply Hst. simpl in Hnone. rewrite List.filter_app in Hnone.
  by apply app_eq_nil in Hnone as [Hnone _].
Qed.

(** X6.  A run writes to the table at most once, to the row of the
    instance, and that write (the delete of the [except] clause or the
    save of line 121) is the last thing it does. *)
Theorem at_most_one_write_and_last env s r s' evs :
  ensure_thumbnails env s = (r, s') →
  trace s' = trace s ++ evs →
  List.filter is_write evs = []
  ∨ ∃ front write,
      evs = front ++ [write]
      ∧ List.filter is_write front = []
      ∧ (write = EvDelete (id (image_attachment s))
         ∨ write = EvSave (id (image_attachment s)) ["thumbnail_metadata"]).
Proof.
  intros Hrun Hevs.
  destruct (missing_thumbnails env (image_attachment s)) as [|f0 rest0] eqn:Hneeded.
  { rewrite ensure_thumbnails_early in Hrun by exact Hneeded.
    injection Hrun as <- <-.
    rewrite <- (app_nil_r (trace s)) in Hevs at 1.
    apply app_inv_head in Hevs as <-. by left. }
  assert (Hne : missing_thumbnails env (image_attachment s) ≠ [])
    by (by rewrite Hneeded).
  destruct (ensure_thumbnails_events _ _ _ _ Hrun Hne)
    as (new' & loop_evs & extra & tail & _ & _ & Htr & _ & Hws & _ & _ & _
        & Htail).
  rewrite Htr in Hevs. apply app_inv_head in Hevs as <-.
  destruct Htail as [[-> _]|[(-> & _)|[(e & _ & -> & _)|(e & _ & ->)]]].
  - left. simpl. by rewrite app_nil_r.
  - right. exists (EvFetch (path_id (image_attachment s)) :: loop_evs).
    eexists. split; [reflexivity|]. split; [exact Hws|]. by right.
  - right.
    exists (EvFetch (path_id (image_attachment s))
            :: loop_evs ++ [EvLog (LogException e)]).
    eexists. split. { simpl. by rewrite <- app_assoc. }
    split. { simpl. by rewrite List.filter_app, Hws. }
    by left.
  - right.
    exists (EvFetch (path_id (image_attachment s))
            :: loop_evs ++ [EvLog (LogException e)]).
    eexists. split. { simpl. by rewrite <- app_assoc. }
    split. { simpl. by rewrite List.filter_app, Hws. }
    by right.
Qed.

(** X7.  The row is deleted only if no derivative has ever been recorded:
    a run that issues a delete found [thumbnail_metadata] empty, has
    appended nothing, has caught and logged a [pyvips.Error], deletes the
    row of the instance and returns 0. *)
Theorem delete_only_when_never_thumbnailed env s r s' evs pk :
  ensure_thumbnails env s = (r, s') →
  trace s' = trace s ++ evs →
  In (EvDelete pk) evs →
  pk = id (image_attachment s)
  ∧ r = Normal 0
  ∧ metadata s = []
  ∧ metadata s' = []
  ∧ table s' = delete (id (image_attachment s)) (table s)
  ∧ ∃ e, is_pyvips_Error e = true ∧ In (EvLog (LogException e)) evs.
Proof.
  intros Hrun Hevs Hin.
  destruct (missing_thumbnails env (image_attachment s)) as [|f0 rest0] eqn:Hneeded.
  { rewrite ensure_thumbnails_early in Hrun by exact Hneeded.
    injection Hrun as <- <-.
    rewrite <- (app_nil_r (trace s)) in Hevs at 1.
    apply app_inv_head in Hevs as <-. destruct Hin. }
  assert (Hne : missing_thumbnails env (image_attachment s) ≠ [])
    by (by rewrite Hneeded).
  destruct (ensure_thumbnails_events _ _ _ _ Hrun Hne)
    as (new' & loop_evs & extra & tail & _ & _ & Htr & _ & Hws & _ & _ & _
        & Htail).
  rewrite Htr in Hevs. apply app_inv_head in Hevs as <-.
  assert (Htail_in : In (EvDelete pk) tail).
  { destruct Hin as [Hin|Hin]; [discriminate|].
    apply in_app_or in Hin as [Hin|Hin]; [|exact Hin].
    destruct (in_filter_nil _ _ _ Hws Hin eq_refl). }
  destruct Htail as [[-> _]|[(-> & _)|[(e & He & -> & ->)|(e & _ & ->)]]].
  - destruct Htail_in.
  - destruct Htail_in as [|[]]. discriminate.
  - destruct Htail_in as [|[[= <-]|[]]]; [discriminate|].
    apply ensure_thumbnails_spec in Hrun
      as (k & new & evs & Hmd & Hlen & _ & _ & Htr' & _ & Hr).
    cbv zeta in Hr.
    rewrite Htr in Htr'. apply app_inv_head in Htr' as <-.
    destruct Hr as [(_ & Hnil & _)|[(_ & -> & _ & Hmd0 & Htab & _)
                                   |(_ & _ & _ & _ & Hwr)]].
    + done.
    + destruct new; [|discriminate]. rewrite app_nil_r in Hmd.
      split; [reflexivity|]. split; [reflexivity|]. split; [exact Hmd0|].
      split; [by rewrite Hmd|]. split; [exact Htab|].
      exists e. split; [exact He|]. right. apply in_or_app. right. by left.
    + simpl in Hwr. rewrite List.filter_app, Hws in Hwr. discriminate.
  - destruct Htail_in as [|[|[]]]; discriminate.
Qed.

(** X8.  No [pyvips.Error] leaves [ensure_thumbnails], and a run that
    raises has written nothing to the table. *)
Theorem raising_run_leaves_table env s e s' :
  ensure_thumbnails env s = (Raise e, s') →
  is_pyvips_Error e = false ∧ table s' = table s.
Proof.
  intros Hrun. apply ensure_thumbnails_spec in Hrun
    as (k & new & evs & _ & _ & _ & _ & _ & _ & Htab & He).
  by split.
Qed.

(** X9.  Whatever the outcome, a run leaves every other row of the table
    alone, leaves the instance's [path_id], original dimensions and
    [frames] as they were, and only appends to its [thumbnail_metadata].
    The instance's primary key is as it was after every run that has not
    called [delete()] (Django clears the key of a deleted instance, so
    nothing is said of it after a delete). *)
Theorem other_rows_and_fields_untouched env s r s' :
  ensure_thumbnails env s = (r, s') →
  (∀ pk, pk ≠ id (image_attachment s) → table s' !! pk = table s !! pk)
  ∧ path_id (image_attachment s') = path_id (image_attachment s)
  ∧ original_width_px (image_attachment s')
    = original_width_px (image_attachment s)
  ∧ original_height_px (image_attachment s')
    = original_height_px (image_attachment s)
  ∧ frames (image_attachment s') = frames (image_attachment s)
  ∧ (∃ new, metadata s' = metadata s ++ new)
  ∧ ∀ evs,
      trace s' = trace s ++ evs →
      ¬ In (EvDelete (id (image_attachment s))) evs →
      id (image_attachment s') = id (image_attachment s).
Proof.
  intros Hrun. apply ensure_thumbnails_spec in Hrun
    as (k & new & evs & Hmd & _ & Ha & _ & _ & _ & Hr).
  cbv zeta in Hr.
  split.
  { intros pk Hpk. destruct r as [n|e].
    - destruct Hr as [(_ & _ & ->)|[(_ & _ & _ & _ & -> & _)
                                   |(_ & _ & _ & (row & _ & ->) & _)]].
      + reflexivity.
      + by rewrite lookup_delete_ne.
      + by rewrite lookup_insert_ne.
    - by destruct Hr as [-> _]. }
  rewrite Ha. repeat (split; [reflexivity|]).
  split; [by exists new|]. reflexivity.
Qed.

(** X10.  The value returned lies between 0 and the number of needed
    formats, and it falls short of that number only when a [pyvips.Error]
    was caught and logged. *)
Theorem returned_count_bounds env s n s' evs :
  ensure_thumbnails env s = (Normal n, s') →
  trace s' = trace s ++ evs →
  0 ≤ n ≤ Z.of_nat (length (missing_thumbnails env (image_attachment s)))
  ∧ (n < Z.of_nat (length (missing_thumbnails env (image_attachment s))) →
     ∃ e, is_pyvips_Error e = true ∧ In (EvLog (LogException e)) evs).
Proof.
  intros Hrun Hevs.
  destruct (missing_thumbnails env (image_attachment s)) as [|f0 rest0] eqn:Hneeded.
  { rewrite ensure_thumbnails_early in Hrun by exact Hneeded.
    injection Hrun as <- <-. simpl. split; lia. }
  assert (Hne : missing_thumbnails env (image_attachment s) ≠ [])
    by (by rewrite Hneeded).
  rewrite <- Hneeded. clear Hneeded f0 rest0.
  destruct (ensure_thumbnails_events _ _ _ _ Hrun Hne)
    as (new' & loop_evs & extra & tail & Hmd' & _ & Htr & _ & Hws & _ & _ & _
        & Htail).
  apply ensure_thumbnails_spec in Hrun
    as (k & new & evs0 & Hmd & Hlen & _ & _ & Htr0 & _ & Hr).
  cbv zeta in Hr.
  rewrite Hmd in Hmd'. apply app_inv_head in Hmd' as <-.
  rewrite Htr in Htr0. apply app_inv_head in Htr0 as <-.
  rewrite Htr in Hevs. apply app_inv_head in Hevs as <-.
  assert (Hbounds :
    0 ≤ n ≤ Z.of_nat (length (missing_thumbnails env (image_attachment s)))).
  { destruct Hr as [(-> & _)|[(-> & _)|(-> & _ & Hk & _)]]; try lia. }
  split; [exact Hbounds|]. intros Hshort.
  destruct Htail as [[-> (e & [=] & _)]
                    |[(-> & Hfull & _)|[(e & He & -> & _)|(e & He & ->)]]].
  - exfalso.
    destruct Hr as [(_ & Hnil & _)|[(_ & _ & _ & _ & _ & Hwr)|(-> & _)]].
    + done.
    + simpl in Hwr. rewrite List.filter_app, Hws in Hwr. discriminate.
    + lia.
  - exists e. split; [exact He|]. right. apply in_or_app. right. by left.
  - exists e. split; [exact He|]. right. apply in_or_app. right. by left.
Qed.

(** What an entry holds besides its dimensions. *)
Lemma derivative_fields env a image_bytes f e :
  derivative env a image_bytes f = Some e →
  Stored.extension e = extension f
  ∧ Stored.max_width e = max_width f
  ∧ Stored.max_height e = max_height f
  ∧ Stored.animated e = animated f
  ∧ guess_type env ("image." +:+ extension f) = Some (Stored.content_type e)
  ∧ ∃ resized data,
      thumbnail_buffer env image_bytes (max_width f) (max_height f)
        (load_opts a f) pyvips.DOWN = inr resized
      ∧ write_to_buffer env resized
          ("." +:+ extension f +:+ "[" +:+ opts f +:+ "]") = inr data
      ∧ Stored.byte_size e = Z.of_nat (length data).
Proof.
  unfold derivative.
  destruct (thumbnail_buffer _ _ _ _ _ _) as [|resized]; [done|].
  destruct (write_to_buffer _ _ _) as [|data] eqn:Hdata; [done|].
  destruct (guess_type _ _) as [ct|]; [|done].
  destruct (output_height f resized) as [|h]; [done|].
  intros [= <-]. simpl. repeat (split; [reflexivity|]).
  exists resized, data. by repeat split.
Qed.

(** X11.  The entry appended for a format copies the format's extension,
    box and animated flag, carries the content type that [guess_type]
    gives for "image.<extension>", and as byte size the length of the
    buffer encoded with the suffix ".<extension>[<opts>]". *)
Theorem entry_fields env s r s' new i f e :
  ensure_thumbnails env s = (r, s') →
  metadata s' = metadata s ++ new →
  missing_thumbnails env (image_attachment s) !! i = Some f →
  new !! i = Some e →
  Stored.extension e = extension f
  ∧ Stored.max_width e = max_width f
  ∧ Stored.max_height e = max_height f
  ∧ Stored.animated e = animated f
  ∧ guess_type env ("image." +:+ extension f) = Some (Stored.content_type e)
  ∧ ∃ image_bytes resized data,
      save_attachment_contents env (path_id (image_attachment s)) (storage s)
        = inr image_bytes
      ∧ thumbnail_buffer env image_bytes (max_width f) (max_height f)
          (load_opts (image_attachment s) f) pyvips.DOWN = inr resized
      ∧ write_to_buffer env resized
          ("." +:+ extension f +:+ "[" +:+ opts f +:+ "]") = inr data
      ∧ Stored.byte_size e = Z.of_nat (length data).
Proof.
  intros Hrun Hnew Hf He.
  destruct (ensure_thumbnails_entry _ _ _ _ _ _ _ _ Hrun Hnew Hf He)
    as (image_bytes & Hbytes & Hd).
  apply derivative_fields in Hd
    as (H1 & H2 & H3 & H4 & H5 & resized & data & H6 & H7 & H8).
  repeat (split; [assumption|]).
  exists image_bytes, resized, data. by repeat split.
Qed.

(** X12.  The height is read after the upload (line 94 follows line 88).
    When the image made for an animated format has no "page-height" field,
    [Image.get] raises [pyvips.Error] with the derivative already handed
    to the backend: for the first needed format of an attachment without
    metadata the run returns 0 and deletes the row, no entry is recorded,
    and the backend keeps the upload. *)
Theorem upload_survives_missing_page_height
    env s f rest image_bytes resized data ct st' :
  missing_thumbnails env (image_attachment s) = f :: rest →
  thumbnail_metadata (image_attachment s) = [] →
  save_attachment_contents env (path_id (image_attachment s)) (storage s)
    = inr image_bytes →
  thumbnail_buffer env image_bytes (max_width f) (max_height f)
    (load_opts (image_attachment s) f) pyvips.DOWN = inr resized →
  write_to_buffer env resized ("." +:+ extension f +:+ "[" +:+ opts f +:+ "]")
    = inr data →
  guess_type env ("image." +:+ extension f) = Some ct →
  upload_message_attachment env
    (get_image_thumbnail_path env (image_attachment s) f) ct data (storage s)
    = inr st' →
  animated f = true →
  pyvips.fields resized !! "page-height" = None →
  ∃ s',
    ensure_thumbnails env s = (Normal 0, s')
    ∧ storage s' = st'
    ∧ metadata s' = []
    ∧ table s' = delete (id (image_attachment s)) (table s).
Proof.
  intros Hneeded Hempty Hbytes E1 E2 E3 E4 Hanim Hfield.
  set (s1 := with_trace (trace s ++ [EvFetch (path_id (image_attachment s))])
               (with_written_images 0 s)).
  assert (Hreach : reaches env s [] f rest image_bytes s1).
  { split; [exact Hneeded|]. exists s1. split; [|reflexivity].
    unfold fetch_contents. unfold_M. simpl. by rewrite Hbytes. }
  assert (Hbody : ∃ msg s3,
    resize_and_upload env image_bytes f s1 = (Raise (pyvips_Error msg), s3)
    ∧ storage s3 = st' ∧ written_images s3 = 0
    ∧ image_attachment s3 = image_attachment s ∧ table s3 = table s).
  { unfold resize_and_upload, output_height, pyvips.get. unfold_M. simpl.
    rewrite E1; simpl. rewrite E2; simpl. rewrite E3; simpl. rewrite E4; simpl.
    rewrite Hanim, Hfield. simpl. eexists _, _. by repeat split. }
  destruct Hbody as (msg & s3 & Hbody & Hst & Hw & Ha & Ht).
  pose proof (ensure_thumbnails_raised_at _ _ _ _ _ _ _ _ _ Hreach Hbody) as Hrun.
  unfold after_loop in Hrun. simpl in Hrun.
  unfold mbind, M_bind in Hrun. rewrite on_pyvips_Error_eq in Hrun.
  rewrite Hw, Ha, Hempty in Hrun. simpl in Hrun. unfold mret, M_ret in Hrun.
  eexists. split; [exact Hrun|]. simpl.
  split; [exact Hst|]. split; [by unfold metadata; simpl; rewrite Ha|].
  by rewrite Ht.
Qed.

(** ** What can be raised *)

Lemma resize_and_upload_raises env image_bytes f s e s' :
  resize_and_upload env image_bytes f s = (Raise e, s') →
  is_pyvips_Error e = true ∨ e = AssertionError ∨ ∃ msg, e = StorageError msg.
Proof.
  unfold resize_and_upload. unfold_M. simpl.
  destruct (thumbnail_buffer _ _ _ _ _ _) as [m1|resized]; simpl;
    [intros [= <- <-]; by left|].
  destruct (write_to_buffer _ _ _) as [m2|tb]; simpl;
    [intros [= <- <-]; by left|].
  destruct (guess_type _ _) as [ct|]; simpl;
    [|intros [= <- <-]; right; by left].
  destruct (upload_message_attachment _ _ _ _ _) as [m4|st']; simpl;
    [intros [= <- <-]; right; right; by eexists|].
  destruct (output_height _ _) as [m5|h]; simpl;
    [intros [= <- <-]; by left|discriminate].
Qed.

Lemma for_each_raises env image_bytes needed s e s' :
  for_each needed (resize_and_upload env image_bytes) s = (Raise e, s') →
  is_pyvips_Error e = true ∨ e = AssertionError ∨ ∃ msg, e = StorageError msg.
Proof.
  revert s. induction needed as [|f needed IH]; intros s; [discriminate|].
  rewrite for_each_cons.
  destruct (resize_and_upload env image_bytes f s) as [[[]|ex] s1] eqn:Hbody.
  - apply IH.
  - intros [= <- <-]. by eapply resize_and_upload_raises.
Qed.

(** [DatabaseError] can only come from a save that found no row. *)
Lemma ensure_thumbnails_raises env s e s' :
  ensure_thumbnails env s = (Raise e, s') →
  e = AssertionError
  ∨ (∃ msg, e = StorageError msg)
  ∨ ((∃ msg, e = DatabaseError msg)
     ∧ table s !! id (image_attachment s) = None).
Proof.
  intros Hrun.
  destruct (missing_thumbnails env (image_attachment s)) as [|f0 rest0] eqn:Hneeded.
  { rewrite ensure_thumbnails_early in Hrun by exact Hneeded. discriminate. }
  assert (Hne : missing_thumbnails env (image_attachment s) ≠ [])
    by (by rewrite Hneeded).
  clear Hneeded f0 rest0.
  destruct (fetch_contents env (path_id (image_attachment s))
              (with_written_images 0 s)) as [[image_bytes|e0] s1] eqn:Hfetch.
  2:{ rewrite (ensure_thumbnails_fetch_failed env s e0 s1 Hne Hfetch) in Hrun.
      injection Hrun as <- <-.
      apply fetch_contents_spec in Hfetch as [_ (msg & -> & _)].
      right; left. by eexists. }
  rewrite (ensure_thumbnails_fetched env s image_bytes s1 Hne Hfetch) in Hrun.
  apply fetch_contents_spec in Hfetch as [-> _].
  destruct (for_each _ _ _) as [r2 s2] eqn:Hloop.
  pose proof (for_each_spec _ _ _ _ _ _ Hloop)
    as (k & new & evs & _ & _ & _ & Ht & Ha & _).
  simpl in Ht, Ha.
  assert (Hsave : ∀ s3 s3', table s3 = table s →
            id (image_attachment s3) = id (image_attachment s) →
            (save ["thumbnail_metadata"];; gets written_images) s3
            = (Raise e, s3') →
            (∃ msg, e = DatabaseError msg)
            ∧ table s !! id (image_attachment s) = None).
  { intros s3 s3' Ht3 Hid3. unfold mbind, M_bind.
    destruct (table s3 !! id (image_attachment s3)) as [row|] eqn:Hrow.
    - rewrite (save_thumbnail_metadata_found s3 row Hrow). discriminate.
    - rewrite (save_not_found s3 _ Hrow). intros [= <- <-].
      split; [by eexists|]. by rewrite <- Ht3, <- Hid3. }
  assert (Hid : id (image_attachment s2) = id (image_attachment s))
    by (by rewrite Ha).
  unfold after_loop in Hrun. destruct r2 as [[]|e2].
  - right; right. by eapply Hsave.
  - apply for_each_raises in Hloop.
    destruct (is_pyvips_Error e2) eqn:He2.
    + unfold mbind at 1, M_bind at 1 in Hrun.
      rewrite on_pyvips_Error_eq in Hrun.
      destruct ((written_images s2 =? 0) && _); [discriminate|].
      right; right. eapply (Hsave _ s'); [| |exact Hrun]; simpl; assumption.
    + injection Hrun as <- <-.
      destruct Hloop as [Hv|[->|Hs]]; [congruence|by left|by right; left].
Qed.

(** ** [consume] *)

Lemma with_table_same s : with_table (table s) s = s.
Proof. by destruct s. Qed.

(** X13.  An event that names no row of the table makes [consume] do
    nothing to the world: nothing is fetched, resized, uploaded or
    written.  Without the key "id" the [KeyError] propagates and nothing
    is logged; with the id of a row that is gone, [consume] logs that the
    row is missing and returns. *)
Theorem consume_without_row env elapsed_ms event w result w' :
  (∀ pk, event !! "id" = Some pk → table (world w) !! pk = None) →
  consume env elapsed_ms event w = (result, w') →
  world w' = world w
  ∧ ((event !! "id" = None ∧ result = Raised (KeyError "id")
      ∧ records w' = records w)
     ∨ ∃ pk, event !! "id" = Some pk ∧ result = Returned
             ∧ records w' = records w ++ [RowMissing pk]).
Proof.
  intros Hnone. unfold consume, atomic, lock_and_ensure.
  destruct (event !! "id") as [pk|] eqn:Hid.
  - rewrite (Hnone pk eq_refl). intros [= <- <-].
    split; [reflexivity|]. right. by exists pk.
  - intros [= <- <-]. simpl. split; [apply with_table_same|]. by left.
Qed.

(** X14.  For an event that names an existing row, a [consume] that
    returns has logged one record, the count [n] that [ensure_thumbnails]
    returned, and has left the table in one of two ways: the row deleted,
    which happens only to a row without metadata (and then [n] is 0); or
    the row kept with exactly [n] entries appended to its metadata and
    every other column as it was. *)
Theorem consume_returns env elapsed_ms event w w' pk row :
  event !! "id" = Some pk →
  table (world w) !! pk = Some row →
  id row = pk →
  consume env elapsed_ms event w = (Returned, w') →
  ∃ n new,
    records w' = records w ++ [Processed n elapsed_ms]
    ∧ n = Z.of_nat (length new)
    ∧ ((thumbnail_metadata row = [] ∧ new = []
        ∧ table (world w') = delete pk (table (world w)))
       ∨ table (world w')
         = <[pk := set_thumbnail_metadata (thumbnail_metadata row ++ new) row]>
             (table (world w))).
Proof.
  intros Hid Hrow Hpk. unfold consume, atomic, lock_and_ensure.
  rewrite Hid, Hrow.
  destruct (ensure_thumbnails env (with_image_attachment row (world w)))
    as [[n|e] s'] eqn:Hrun; [|discriminate].
  intros [= <-]. simpl.
  apply ensure_thumbnails_spec in Hrun
    as (k & new & evs & Hmd & Hlen & _ & _ & _ & _ & Hr).
  cbv zeta in Hr. simpl in Hr, Hmd. rewrite Hpk in Hr.
  change (metadata s' = thumbnail_metadata row ++ new) in Hmd.
  exists n, new. split; [reflexivity|].
  destruct Hr as [(-> & _ & ->)
                 |[(-> & -> & _ & Hempty & Htab & _)
                  |(-> & _ & _ & (row0 & Hrow0 & Htab) & _)]].
  - assert (new = []) as ->.
    { apply (app_inv_head (thumbnail_metadata row)).
      rewrite app_nil_r. symmetry. exact Hmd. }
    split; [reflexivity|]. right. simpl.
    by rewrite app_nil_r, set_thumbnail_metadata_id, insert_id.
  - destruct new; [|discriminate]. split; [reflexivity|]. left.
    by repeat split.
  - split; [by rewrite Hlen|]. right.
    rewrite Hrow in Hrow0. injection Hrow0 as <-. by rewrite Htab, Hmd.
Qed.

(** X15.  What [consume] can raise for a table whose rows are stored under
    their own ids, with collaborators that raise only their own errors: a
    [KeyError] for an event without "id", the failed [assert] on the
    content type, or an error of the storage backend (reading the original
    or taking an upload); never a [pyvips.Error].  When it raises it has
    logged nothing of its own and the table is what it was. *)
Theorem consume_raises env elapsed_ms event w e w' :
  (∀ pk row, table (world w) !! pk = Some row → id row = pk) →
  consume env elapsed_ms event w = (Raised e, w') →
  (e = KeyError "id"
   ∨ e = Uncaught AssertionError
   ∨ ∃ msg, e = Uncaught (StorageError msg))
  ∧ records w' = records w
  ∧ table (world w') = table (world w).
Proof.
  intros Hkeys. unfold consume, atomic, lock_and_ensure.
  destruct (event !! "id") as [pk|] eqn:Hid.
  2:{ intros [= <- <-]. split; [by left|]. by split. }
  destruct (table (world w) !! pk) as [row|] eqn:Hrow; [|discriminate].
  destruct (ensure_thumbnails env (with_image_attachment row (world w)))
    as [[n|e0] s'] eqn:Hrun; [discriminate|].
  intros [= <- <-]. simpl. split; [|by split].
  apply ensure_thumbnails_raises in Hrun
    as [->|[[msg ->]|[_ Hgone]]].
  - right; by left.
  - right; right. by exists msg.
  - simpl in Hgone. rewrite (Hkeys pk row Hrow) in Hgone. congruence.
Qed.

(** ** The further properties on concrete runs *)

Lemma fetch_failure_propagates_witness :
  ∃ s',
    ensure_thumbnails Sample.world Delivery.lost
    = (Raise (StorageError "no such file: 2/ab/pic"), s')
    ∧ table s' = table Delivery.lost
    ∧ storage s' = storage Delivery.lost
    ∧ image_attachment s' = image_attachment Delivery.lost
    ∧ trace s'
      = trace Delivery.lost
        ++ [EvFetch (path_id (image_attachment Delivery.lost))].
Proof.
  apply (fetch_failure_propagates Sample.world Delivery.lost
           "no such file: 2/ab/pic").
  - vm_compute. discriminate.
  - vm_compute. reflexivity.
Defined.

(** Six frames of 50 x 20 against the catalogue: the still format is made
    from the first frame, the animated one from all of them. *)
Lemma all_formats_written_witness :
  ∃ s',
    ensure_thumbnails Sample.world Sample.animation
    = (Normal
         (Z.of_nat
            (length
               (missing_thumbnails Sample.world
                  (image_attachment Sample.animation)))),
       s')
    ∧ metadata s'
      = metadata Sample.animation
        ++ [Sample.stored_jpg_clip; Sample.stored_webp_clip]
    ∧ table s'
      = <[id (image_attachment Sample.animation)
          := set_thumbnail_metadata
               (metadata Sample.animation
                ++ [Sample.stored_jpg_clip; Sample.stored_webp_clip])
               (Sample.attachment 6 [])]> (table Sample.animation)
    ∧ trace s'
      = trace Sample.animation
        ++ EvFetch (path_id (image_attachment Sample.animation))
           :: loop_events Sample.world (image_attachment Sample.animation)
                (missing_thumbnails Sample.world
                   (image_attachment Sample.animation))
                [Sample.stored_jpg_clip; Sample.stored_webp_clip]
        ++ [EvSave (id (image_attachment Sample.animation))
              ["thumbnail_metadata"]].
Proof.
  apply (all_formats_written Sample.world Sample.animation Sample.clip
           [Sample.stored_jpg_clip; Sample.stored_webp_clip]
           (Sample.attachment 6 [])).
  - vm_compute. discriminate.
  - vm_compute. reflexivity.
  - vm_compute. repeat constructor.
  - intros path ct data st. eexists. reflexivity.
  - vm_compute. reflexivity.
Defined.

Lemma original_fetched_once_witness :
  ∃ rest,
    trace (ensure_thumbnails Sample.world Sample.still).2
    = EvFetch (path_id (image_attachment Sample.still)) :: rest
    ∧ List.filter is_fetch rest = [].
Proof.
  apply (original_fetched_once Sample.world Sample.still
           (ensure_thumbnails Sample.world Sample.still).1
           (ensure_thumbnails Sample.world Sample.still).2).
  - apply surjective_pairing.
  - vm_compute. discriminate.
  - reflexivity.
Defined.

(** Six frames against the catalogue: two entries, two uploads taken. *)
Lemma entries_follow_uploads_witness :
  (∃ st,
     uploads Sample.world (image_attachment Sample.animation)
       (take
          (length (metadata (ensure_thumbnails Sample.world Sample.animation).2))
          (missing_thumbnails Sample.world (image_attachment Sample.animation)))
       (metadata (ensure_thumbnails Sample.world Sample.animation).2)
       (storage Sample.animation) st
     ∧ (storage (ensure_thumbnails Sample.world Sample.animation).2 = st
        ∨ ∃ f ct data,
            missing_thumbnails Sample.world (image_attachment Sample.animation)
              !! length
                   (metadata
                      (ensure_thumbnails Sample.world Sample.animation).2)
            = Some f
            ∧ upload_message_attachment Sample.world
                (get_image_thumbnail_path Sample.world
                   (set_thumbnail_metadata
                      (metadata Sample.animation
                       ++ metadata
                            (ensure_thumbnails Sample.world Sample.animation).2)
                      (image_attachment Sample.animation)) f)
                ct data st
              = inr (storage
                       (ensure_thumbnails Sample.world Sample.animation).2)))
  ∧ (length
       (List.filter is_upload
          (trace (ensure_thumbnails Sample.world Sample.animation).2))
     ≤ length (metadata (ensure_thumbnails Sample.world Sample.animation).2)
       + 1)%nat
  ∧ ∀ i f e,
      missing_thumbnails Sample.world (image_attachment Sample.animation) !! i
        = Some f →
      metadata (ensure_thumbnails Sample.world Sample.animation).2 !! i
        = Some e →
      List.filter is_upload
        (trace (ensure_thumbnails Sample.world Sample.animation).2) !! i
      = Some (EvUpload
                (get_image_thumbnail_path Sample.world
                   (set_thumbnail_metadata
                      (metadata Sample.animation
                       ++ take i
                            (metadata
                               (ensure_thumbnails Sample.world
                                  Sample.animation).2))
                      (image_attachment Sample.animation)) f)
                (Stored.content_type e) (Stored.byte_size e)).
Proof.
  apply (entries_follow_uploads Sample.world Sample.animation
           (ensure_thumbnails Sample.world Sample.animation).1
           (ensure_thumbnails Sample.world Sample.animation).2).
  - apply surjective_pairing.
  - reflexivity.
  - reflexivity.
Defined.

(** A source that does not decode: nothing is uploaded, the backend is as
    it was. *)
Lemma storage_changes_only_by_upload_witness :
  storage (ensure_thumbnails Sample.world Delivery.broken).2
  = storage Delivery.broken.
Proof.
  apply (storage_changes_only_by_upload Sample.world Delivery.broken
           (ensure_thumbnails Sample.world Delivery.broken).1
           (ensure_thumbnails Sample.world Delivery.broken).2
           (trace (ensure_thumbnails Sample.world Delivery.broken).2)).
  - apply surjective_pairing.
  - reflexivity.
  - vm_compute. reflexivity.
Defined.

Lemma at_most_one_write_and_last_witness :
  List.filter is_write (trace (ensure_thumbnails Sample.world Sample.still).2)
  = []
  ∨ ∃ front write,
      trace (ensure_thumbnails Sample.world Sample.still).2 = front ++ [write]
      ∧ List.filter is_write front = []
      ∧ (write = EvDelete (id (image_attachment Sample.still))
         ∨ write
           = EvSave (id (image_attachment Sample.still)) ["thumbnail_metadata"]).
Proof.
  apply (at_most_one_write_and_last Sample.world Sample.still
           (ensure_thumbnails Sample.world Sample.still).1
           (ensure_thumbnails Sample.world Sample.still).2).
  - apply surjective_pairing.
  - reflexivity.
Defined.

Lemma delete_only_when_never_thumbnailed_witness :
  7 = id (image_attachment Delivery.broken)
  ∧ (ensure_thumbnails Sample.world Delivery.broken).1 = Normal 0
  ∧ metadata Delivery.broken = []
  ∧ metadata (ensure_thumbnails Sample.world Delivery.broken).2 = []
  ∧ table (ensure_thumbnails Sample.world Delivery.broken).2
    = delete (id (image_attachment Delivery.broken)) (table Delivery.broken)
  ∧ ∃ e, is_pyvips_Error e = true
         ∧ In (EvLog (LogException e))
             (trace (ensure_thumbnails Sample.world Delivery.broken).2).
Proof.
  apply (delete_only_when_never_thumbnailed Sample.world Delivery.broken
           (ensure_thumbnails Sample.world Delivery.broken).1
           (ensure_thumbnails Sample.world Delivery.broken).2
           (trace (ensure_thumbnails Sample.world Delivery.broken).2) 7).
  - apply surjective_pairing.
  - reflexivity.
  - vm_compute. do 4 right. left. reflexivity.
Defined.

Lemma raising_run_leaves_table_witness :
  is_pyvips_Error (StorageError "upload failed: thumbnail/2/ab/pic/webp-anim")
  = false
  ∧ table (ensure_thumbnails Delivery.refusing_world Sample.still).2
    = table Sample.still.
Proof.
  apply (raising_run_leaves_table Delivery.refusing_world Sample.still).
  vm_compute. reflexivity.
Defined.

(** Three formats needed, the second cannot be encoded: the run returns 1
    and has logged the error. *)
Lemma returned_count_bounds_witness :
  0 ≤ 1
  ≤ Z.of_nat
      (length
         (missing_thumbnails Delivery.gif_world (image_attachment Sample.still)))
  ∧ (1 < Z.of_nat
           (length
              (missing_thumbnails Delivery.gif_world
                 (image_attachment Sample.still))) →
     ∃ e, is_pyvips_Error e = true
          ∧ In (EvLog (LogException e))
              (trace (ensure_thumbnails Delivery.gif_world Sample.still).2)).
Proof.
  apply (returned_count_bounds Delivery.gif_world Sample.still 1
           (ensure_thumbnails Delivery.gif_world Sample.still).2).
  - vm_compute. reflexivity.
  - reflexivity.
Defined.

(** A source that does not decode, so that the run deletes the row. *)
Lemma other_rows_and_fields_untouched_witness :
  (∀ pk, pk ≠ id (image_attachment Delivery.broken) →
     table (ensure_thumbnails Sample.world Delivery.broken).2 !! pk
     = table Delivery.broken !! pk)
  ∧ path_id (image_attachment
               (ensure_thumbnails Sample.world Delivery.broken).2)
    = path_id (image_attachment Delivery.broken)
  ∧ original_width_px
      (image_attachment (ensure_thumbnails Sample.world Delivery.broken).2)
    = original_width_px (image_attachment Delivery.broken)
  ∧ original_height_px
      (image_attachment (ensure_thumbnails Sample.world Delivery.broken).2)
    = original_height_px (image_attachment Delivery.broken)
  ∧ frames (image_attachment
              (ensure_thumbnails Sample.world Delivery.broken).2)
    = frames (image_attachment Delivery.broken)
  ∧ (∃ new,
       metadata (ensure_thumbnails Sample.world Delivery.broken).2
       = metadata Delivery.broken ++ new)
  ∧ ∀ evs,
      trace (ensure_thumbnails Sample.world Delivery.broken).2
      = trace Delivery.broken ++ evs →
      ¬ In (EvDelete (id (image_attachment Delivery.broken))) evs →
      id (image_attachment (ensure_thumbnails Sample.world Delivery.broken).2)
      = id (image_attachment Delivery.broken).
Proof.
  apply (other_rows_and_fields_untouched Sample.world Delivery.broken
           (ensure_thumbnails Sample.world Delivery.broken).1).
  apply surjective_pairing.
Defined.

Lemma entry_fields_witness :
  Stored.extension Sample.stored_webp_100_anim = extension Sample.webp_100_anim
  ∧ Stored.max_width Sample.stored_webp_100_anim
    = max_width Sample.webp_100_anim
  ∧ Stored.max_height Sample.stored_webp_100_anim
    = max_height Sample.webp_100_anim
  ∧ Stored.animated Sample.stored_webp_100_anim = animated Sample.webp_100_anim
  ∧ guess_type Sample.world ("image." +:+ extension Sample.webp_100_anim)
    = Some (Stored.content_type Sample.stored_webp_100_anim)
  ∧ ∃ image_bytes resized data,
      save_attachment_contents Sample.world
        (path_id (image_attachment Sample.still)) (storage Sample.still)
      = inr image_bytes
      ∧ thumbnail_buffer Sample.world image_bytes
          (max_width Sample.webp_100_anim) (max_height Sample.webp_100_anim)
          (load_opts (image_attachment Sample.still) Sample.webp_100_anim)
          pyvips.DOWN = inr resized
      ∧ write_to_buffer Sample.world resized
          ("." +:+ extension Sample.webp_100_anim +:+ "["
           +:+ opts Sample.webp_100_anim +:+ "]") = inr data
      ∧ Stored.byte_size Sample.stored_webp_100_anim = Z.of_nat (length data).
Proof.
  apply (entry_fields Sample.world Sample.still
           (ensure_thumbnails Sample.world Sample.still).1
           (ensure_thumbnails Sample.world Sample.still).2
           (metadata (ensure_thumbnails Sample.world Sample.still).2) 1%nat).
  - apply surjective_pairing.
  - reflexivity.
  - reflexivity.
  - vm_compute. reflexivity.
Defined.

(** A still without pages, and a catalogue that starts with the animated
    format: the upload is made, the height cannot be read, the row goes. *)
Lemma upload_survives_missing_page_height_witness :
  ∃ s',
    ensure_thumbnails Delivery.still_world Sample.still = (Normal 0, s')
    ∧ storage s'
      = <["thumbnail/2/ab/pic/webp-anim"
          := {| file_content_type := Some "image/webp";
                file_content := [xff; xd8; xff; xd9] |}]> (storage Sample.still)
    ∧ metadata s' = []
    ∧ table s' = delete (id (image_attachment Sample.still)) (table Sample.still).
Proof.
  apply (upload_survives_missing_page_height Delivery.still_world Sample.still
           Sample.webp_100_anim [Sample.jpg_100] Sample.tall
           {| pyvips.width := 25; pyvips.height := 100; pyvips.fields := ∅ |}
           [xff; xd8; xff; xd9] "image/webp").
  - vm_compute. reflexivity.
  - reflexivity.
  - vm_compute. reflexivity.
  - vm_compute. reflexivity.
  - reflexivity.
  - reflexivity.
  - reflexivity.
  - reflexivity.
  - reflexivity.
Defined.

(** An event without an id, and an event for a row that is gone. *)
Lemma consume_without_row_witness :
  (world (consume Sample.world 12 Delivery.event_empty
            (Delivery.worker Sample.still)).2
   = world (Delivery.worker Sample.still)
   ∧ ((Delivery.event_empty !! "id" = None
       ∧ (consume Sample.world 12 Delivery.event_empty
            (Delivery.worker Sample.still)).1 = Raised (KeyError "id")
       ∧ records (consume Sample.world 12 Delivery.event_empty
                    (Delivery.worker Sample.still)).2
         = records (Delivery.worker Sample.still))
      ∨ ∃ pk, Delivery.event_empty !! "id" = Some pk
              ∧ (consume Sample.world 12 Delivery.event_empty
                   (Delivery.worker Sample.still)).1 = Returned
              ∧ records (consume Sample.world 12 Delivery.event_empty
                           (Delivery.worker Sample.still)).2
                = records (Delivery.worker Sample.still) ++ [RowMissing pk]))
  ∧ (world (consume Sample.world 12 Delivery.event_8
              (Delivery.worker Sample.still)).2
     = world (Delivery.worker Sample.still)
     ∧ ((Delivery.event_8 !! "id" = None
         ∧ (consume Sample.world 12 Delivery.event_8
              (Delivery.worker Sample.still)).1 = Raised (KeyError "id")
         ∧ records (consume Sample.world 12 Delivery.event_8
                      (Delivery.worker Sample.still)).2
           = records (Delivery.worker Sample.still))
        ∨ ∃ pk, Delivery.event_8 !! "id" = Some pk
                ∧ (consume Sample.world 12 Delivery.event_8
                     (Delivery.worker Sample.still)).1 = Returned
                ∧ records (consume Sample.world 12 Delivery.event_8
                             (Delivery.worker Sample.still)).2
                  = records (Delivery.worker Sample.still) ++ [RowMissing pk])).
Proof.
  split.
  - apply (consume_without_row Sample.world 12 Delivery.event_empty
             (Delivery.worker Sample.still)).
    + intros pk. vm_compute. discriminate.
    + apply surjective_pairing.
  - apply (consume_without_row Sample.world 12 Delivery.event_8
             (Delivery.worker Sample.still)).
    + intros pk Hpk. vm_compute in Hpk. injection Hpk as <-.
      vm_compute. reflexivity.
    + apply surjective_pairing.
Defined.

Lemma consume_returns_witness :
  ∃ n new,
    records (consume Sample.world 12 Delivery.event_7
               (Delivery.worker Sample.still)).2
    = records (Delivery.worker Sample.still) ++ [Processed n 12]
    ∧ n = Z.of_nat (length new)
    ∧ ((thumbnail_metadata (Sample.attachment 1 []) = [] ∧ new = []
        ∧ table (world (consume Sample.world 12 Delivery.event_7
                          (Delivery.worker Sample.still)).2)
          = delete 7 (table (world (Delivery.worker Sample.still))))
       ∨ table (world (consume Sample.world 12 Delivery.event_7
                         (Delivery.worker Sample.still)).2)
         = <[7 := set_thumbnail_metadata
                    (thumbnail_metadata (Sample.attachment 1 []) ++ new)
                    (Sample.attachment 1 [])]>
             (table (world (Delivery.worker Sample.still)))).
Proof.
  apply (consume_returns Sample.world 12 Delivery.event_7
           (Delivery.worker Sample.still)).
  - vm_compute. reflexivity.
  - vm_compute. reflexivity.
  - reflexivity.
  - vm_compute. reflexivity.
Defined.

(** The backend refuses the second upload. *)
Lemma consume_raises_witness :
  (Uncaught (StorageError "upload failed: thumbnail/2/ab/pic/webp-anim")
   = KeyError "id"
   ∨ Uncaught (StorageError "upload failed: thumbnail/2/ab/pic/webp-anim")
     = Uncaught AssertionError
   ∨ ∃ msg,
       Uncaught (StorageError "upload failed: thumbnail/2/ab/pic/webp-anim")
       = Uncaught (StorageError msg))
  ∧ records (consume Delivery.refusing_world 12 Delivery.event_7
               (Delivery.worker Sample.still)).2
    = records (Delivery.worker Sample.still)
  ∧ table (world (consume Delivery.refusing_world 12 Delivery.event_7
                    (Delivery.worker Sample.still)).2)
    = table (world (Delivery.worker Sample.still)).
Proof.
  apply (consume_raises Delivery.refusing_world 12 Delivery.event_7
           (Delivery.worker Sample.still)).
  - intros pk row Hrow.
    change (table (world (Delivery.worker Sample.still)))
      with ({[7 := Sample.attachment 1 []]} : gmap Z ImageAttachment) in Hrow.
    apply lookup_singleton_Some in Hrow as [<- <-]. reflexivity.
  - vm_compute. reflexivity.
Defined.
